(** * Breakpoint gutter binding of the debugger front-end

    A shallow embedding of the editor handler ([EditorHandler], with its
    [Private] helpers and its static functions) and of the breakpoints
    panel ([Breakpoints]), followed by the properties the specification
    states about them.

    Conventions of the embedding:
    - a JavaScript number holding a line number is a [Z];
    - a [null]/[undefined] reference is [None];
    - a JavaScript object used as a bag of fields ([source], the
      [gutterMarkers] of a line) is a [gmap] keyed by field name;
    - a dereference of [null] raises [TypeError]: fallible operations return
      a [Completion];
    - asynchronous requests to the debugger service are fire-and-forget
      ([void service.f(...)]): they are recorded in the service's call log. *)

From Stdlib Require Import ZArith String List Bool Lia.
From stdpp Require Import base option list strings gmap.

Local Open Scope string_scope.
Local Open Scope list_scope.
Local Open Scope Z_scope.

(** ** Completions: normal return or a thrown error *)

Inductive Error : Type := TypeError.

Inductive Completion (A : Type) : Type :=
| Normal (a : A)
| Throw (e : Error).
Arguments Normal {A} a.
Arguments Throw {A} e.

#[global] Instance Completion_ret : MRet Completion := @Normal.
#[global] Instance Completion_bind : MBind Completion :=
  λ A B f c, match c with Normal a => f a | Throw e => Throw e end.

(** Dereference of a possibly-null reference. *)
Definition deref {A : Type} (r : option A) : Completion A :=
  match r with Some a => Normal a | None => Throw TypeError end.

(** ** Breakpoint records *)

Module IDebugger.

(** Modelled from the spec: the declaration of [IDebugger.IBreakpoint]
    (tokens.ts) is not part of the fragment. A breakpoint is
    [{line, active, verified, source}]; [source] is kept as the object it
    is, a finite map from field names to strings. *)
Record IBreakpoint : Type := mkBreakpoint {
  line : Z;
  active : bool;
  verified : bool;
  source : gmap string string
}.

End IDebugger.

(** ** The CodeMirror editor instance

    CodeMirror is an external library. The definitions of this module follow
    the behaviour of the CodeMirror 5 functions the handler calls
    ([lineInfo], [setGutterMarker], [addLineClass], [removeLineClass],
    [eachLine], [lineCount], [setOption], [on]/[off]). *)

Module CodeMirror.

(** A DOM element used as gutter marker. *)
Record MarkerNode : Type := mkMarkerNode {
  tagName : string;
  className : string;
  innerHTML : string
}.

(** A line of the document. [gutterMarkers] is [null] or an object mapping
    gutter IDs to marker elements; a class attribute is the set of its
    class names. *)
Record Line : Type := mkLine {
  text : string;
  gutterMarkers : option (gmap string MarkerNode);
  textClass : gset string;
  bgClass : gset string;
  wrapClass : gset string
}.

(** The editor: its document (the lines, first line number 0), the two
    options the handler sets, and the listeners registered for
    ['gutterClick'] (a listener is identified by the number of the object
    owning it). *)
Record Editor : Type := mkEditor {
  lines : list Line;
  opt_lineNumbers : bool;
  opt_gutters : list string;
  gutterClick : list nat
}.

Definition set_lines (ls : list Line) (cm : Editor) : Editor :=
  {| lines := ls; opt_lineNumbers := opt_lineNumbers cm;
     opt_gutters := opt_gutters cm; gutterClick := gutterClick cm |}.

Definition set_gutterMarkers (g : option (gmap string MarkerNode)) (l : Line) : Line :=
  {| text := text l; gutterMarkers := g; textClass := textClass l;
     bgClass := bgClass l; wrapClass := wrapClass l |}.

(** [doc.lineCount()] *)
Definition lineCount (cm : Editor) : Z := Z.of_nat (length (lines cm)).

(** [isLine(doc, n)]: [n >= doc.first && n < doc.first + doc.size] *)
Definition isLine (cm : Editor) (n : Z) : bool :=
  (0 <=? n) && (n <? lineCount cm).

(** [clipLine(doc, n)]:
    [Math.max(doc.first, Math.min(n, doc.first + doc.size - 1))] *)
Definition clipLine (cm : Editor) (n : Z) : Z :=
  Z.max 0 (Z.min n (lineCount cm - 1)).

(** [changeLine(doc, handle, changeType, op)] with a line number as
    handle: the number is clipped to the document and [op] is applied to
    the line found there. *)
Definition changeLine (cm : Editor) (n : Z) (op : Line → Line) : Editor :=
  set_lines (alter op (Z.to_nat (clipLine cm n)) (lines cm)) cm.

(** The operation of [setGutterMarker] on the line it resolved:
    [markers = line.gutterMarkers || (line.gutterMarkers = {});
     markers[gutterID] = value;
     if (!value && isEmpty(markers)) line.gutterMarkers = null]. *)
Definition setGutterMarker_line (gutterID : string) (value : option MarkerNode)
    (l : Line) : Line :=
  let markers := default ∅ (gutterMarkers l) in
  match value with
  | Some v => set_gutterMarkers (Some (<[gutterID := v]> markers)) l
  | None =>
      let markers' := delete gutterID markers in
      if decide (markers' = ∅) then set_gutterMarkers None l
      else set_gutterMarkers (Some markers') l
  end.

(** [cm.setGutterMarker(line, gutterID, value)] with a line number. *)
Definition setGutterMarker (cm : Editor) (n : Z) (gutterID : string)
    (value : option MarkerNode) : Editor :=
  changeLine cm n (setGutterMarker_line gutterID value).

(** The class attribute selected by the [where] argument of
    [addLineClass]/[removeLineClass] (['text'], ['background'], otherwise
    the wrapper element). *)
Definition addLineClass_line (where_ cls : string) (l : Line) : Line :=
  if decide (where_ = "text") then
    {| text := text l; gutterMarkers := gutterMarkers l;
       textClass := textClass l ∪ {[cls]}; bgClass := bgClass l;
       wrapClass := wrapClass l |}
  else if decide (where_ = "background") then
    {| text := text l; gutterMarkers := gutterMarkers l;
       textClass := textClass l; bgClass := bgClass l ∪ {[cls]};
       wrapClass := wrapClass l |}
  else
    {| text := text l; gutterMarkers := gutterMarkers l;
       textClass := textClass l; bgClass := bgClass l;
       wrapClass := wrapClass l ∪ {[cls]} |}.

Definition removeLineClass_line (where_ cls : string) (l : Line) : Line :=
  if decide (where_ = "text") then
    {| text := text l; gutterMarkers := gutterMarkers l;
       textClass := textClass l ∖ {[cls]}; bgClass := bgClass l;
       wrapClass := wrapClass l |}
  else if decide (where_ = "background") then
    {| text := text l; gutterMarkers := gutterMarkers l;
       textClass := textClass l; bgClass := bgClass l ∖ {[cls]};
       wrapClass := wrapClass l |}
  else
    {| text := text l; gutterMarkers := gutterMarkers l;
       textClass := textClass l; bgClass := bgClass l;
       wrapClass := wrapClass l ∖ {[cls]} |}.

(** The object returned by [lineInfo] (line widgets are not modelled). *)
Record LineInfo : Type := mkLineInfo {
  li_line : Z;
  li_handle : Line;
  li_text : string;
  li_gutterMarkers : option (gmap string MarkerNode);
  li_textClass : gset string;
  li_bgClass : gset string;
  li_wrapClass : gset string
}.

(** [cm.lineInfo(n)] with a line number: [null] when [n] is not a line of
    the document, otherwise the description of line [n], with [line: n]. *)
Definition lineInfo (cm : Editor) (n : Z) : option LineInfo :=
  if isLine cm n then
    match lines cm !! Z.to_nat n with
    | Some l =>
        Some {| li_line := n; li_handle := l; li_text := text l;
                li_gutterMarkers := gutterMarkers l;
                li_textClass := textClass l; li_bgClass := bgClass l;
                li_wrapClass := wrapClass l |}
    | None => None
    end
  else None.

(** [cm.addLineClass(line, where, cls)] with a line number. *)
Definition addLineClass (cm : Editor) (n : Z) (where_ cls : string) : Editor :=
  changeLine cm n (addLineClass_line where_ cls).

(** [doc.eachLine(f)] where [f] updates the line handle it is given. *)
Definition eachLine (cm : Editor) (f : Line → Line) : Editor :=
  set_lines (map f (lines cm)) cm.

(** [cm.setOption('gutters', v)] and the ['lineNumbers'] option. *)
Definition setOption_gutters (v : list string) (cm : Editor) : Editor :=
  {| lines := lines cm; opt_lineNumbers := opt_lineNumbers cm;
     opt_gutters := v; gutterClick := gutterClick cm |}.

Definition setOption_lineNumbers (v : bool) (cm : Editor) : Editor :=
  {| lines := lines cm; opt_lineNumbers := v;
     opt_gutters := opt_gutters cm; gutterClick := gutterClick cm |}.

(** [cm.on('gutterClick', f)] appends the listener; [cm.off] removes its
    first registration. *)
Fixpoint remove_first (x : nat) (l : list nat) : list nat :=
  match l with
  | [] => []
  | y :: l' => if decide (x = y) then l' else y :: remove_first x l'
  end.

Definition on_gutterClick (f : nat) (cm : Editor) : Editor :=
  {| lines := lines cm; opt_lineNumbers := opt_lineNumbers cm;
     opt_gutters := opt_gutters cm; gutterClick := gutterClick cm ++ [f] |}.

Definition off_gutterClick (f : nat) (cm : Editor) : Editor :=
  {| lines := lines cm; opt_lineNumbers := opt_lineNumbers cm;
     opt_gutters := opt_gutters cm; gutterClick := remove_first f (gutterClick cm) |}.

End CodeMirror.

(** ** The editor widget

    [CodeEditor.IEditor], implemented by [CodeMirrorEditor]: a disposable
    wrapper around a CodeMirror instance ([editor.editor], whose document is
    [editor.doc]) with the text model [editor.model.value.text]. *)

Module CodeEditor.

Record IEditor : Type := mkIEditor {
  isDisposed : bool;
  editor : CodeMirror.Editor;
  model_value_text : string
}.

Definition set_editor (cm : CodeMirror.Editor) (e : IEditor) : IEditor :=
  {| isDisposed := isDisposed e; editor := cm;
     model_value_text := model_value_text e |}.

(** [editor.setOption('lineNumbers', v)] is forwarded to the instance. *)
Definition setOption_lineNumbers (v : bool) (e : IEditor) : IEditor :=
  set_editor (CodeMirror.setOption_lineNumbers v (editor e)) e.

End CodeEditor.

(** ** The debugger service and its model *)

Module Debugger.

(** Modelled from the spec: the breakpoints model (breakpoints/model.ts) is
    not part of the fragment; the handler uses its query
    [getBreakpoints(sourceId) → Breakpoint[]]. *)
Record BreakpointsModel : Type := mkBreakpointsModel {
  getBreakpoints : string → list IDebugger.IBreakpoint
}.

(** [Debugger.Model]: the handler reads its [breakpoints] sub-model (the
    [callstack] sub-model only provides a signal). *)
Record Model : Type := mkModel {
  breakpoints : BreakpointsModel
}.

(** One request [updateBreakpoints(code, breakpoints, path?)]. *)
Record UpdateBreakpoints : Type := mkUpdateBreakpoints {
  ub_code : string;
  ub_breakpoints : list IDebugger.IBreakpoint;
  ub_path : option string
}.

(** The state in which a promise returned by the service settles. *)
Inductive Promise : Type := Fulfilled | Rejected.

(** Modelled from the spec: the service ([IDebugger], implemented in
    service.ts) is not part of the fragment. It offers
    [session.client.path], [session.client.name], [model], [getCodeId],
    and the asynchronous requests [updateBreakpoints] and
    [clearBreakpoints]; the requests received are kept in order in
    [updateBreakpoints_log] and counted in [clearBreakpoints_count], and
    [promise] is how the service settles a request. *)
Record Service : Type := mkService {
  session_client_path : string;
  session_client_name : string;
  model : option Model;
  getCodeId : string → string;
  promise : Promise;
  updateBreakpoints_log : list UpdateBreakpoints;
  clearBreakpoints_count : nat
}.

(** [service.updateBreakpoints(code, breakpoints, path)]: the request is
    issued and a promise is returned. *)
Definition updateBreakpoints (code : string) (bps : list IDebugger.IBreakpoint)
    (path : option string) (s : Service) : Service * Promise :=
  ({| session_client_path := session_client_path s;
      session_client_name := session_client_name s;
      model := model s; getCodeId := getCodeId s; promise := promise s;
      updateBreakpoints_log :=
        updateBreakpoints_log s ++ [mkUpdateBreakpoints code bps path];
      clearBreakpoints_count := clearBreakpoints_count s |}, promise s).

(** [service.clearBreakpoints()] *)
Definition clearBreakpoints (s : Service) : Service * Promise :=
  ({| session_client_path := session_client_path s;
      session_client_name := session_client_name s;
      model := model s; getCodeId := getCodeId s; promise := promise s;
      updateBreakpoints_log := updateBreakpoints_log s;
      clearBreakpoints_count := S (clearBreakpoints_count s) |}, promise s).

(** [void p]: the promise is dropped, whatever its state. *)
Definition void {A : Type} (r : A * Promise) : A := fst r.

End Debugger.

(** ** Module private data *)

Module Private.

Abbreviation ILineInfo := CodeMirror.LineInfo.

(** Create a marker DOM element for a breakpoint. *)
Definition createMarkerNode : CodeMirror.MarkerNode :=
  {| CodeMirror.tagName := "div";
     CodeMirror.className := "jp-DebuggerEditor-marker";
     CodeMirror.innerHTML := "●" |}.

(** Create a breakpoint record: [session] is the name of the session,
    [line] the line number of the breakpoint. *)
Definition createBreakpoint (session : string) (line : Z) : IDebugger.IBreakpoint :=
  {| IDebugger.line := line;
     IDebugger.active := true;
     IDebugger.verified := true;
     IDebugger.source := {[ "name" := session ]} |}.

End Private.

Definition LINE_HIGHLIGHT_CLASS : string := "jp-DebuggerEditor-highlight".

Definition EDITOR_CHANGED_TIMEOUT : Z := 1000.

(** [array.forEach] / a [for] loop whose body may throw, threading the state
    the body updates. *)
Fixpoint forEach {A S : Type} (f : S → A → Completion S) (l : list A) (s : S)
    : Completion S :=
  match l with
  | [] => Normal s
  | a :: l' => s' ← f s a; forEach f l' s'
  end.

(** ** The editor handler *)

Module EditorHandler.

Import CodeEditor Debugger.

(** The signals the handler connects to. *)
Inductive SignalName : Type :=
| modelChanged | activityStopped | currentFrameChanged | changed | restored.

(** A connection of one of the handler's slots to a signal; [thisArg] tells
    whether the handler was given as the receiver ([connect(slot, this)]). *)
Record Connection : Type := mkConnection {
  signal : SignalName;
  thisArg : bool
}.

(** The debounce monitor ([ActivityMonitor] of coreutils). *)
Record ActivityMonitor : Type := mkActivityMonitor {
  timeout : Z;
  monitor_isDisposed : bool
}.

Definition ActivityMonitor_dispose (m : ActivityMonitor) : ActivityMonitor :=
  {| timeout := timeout m; monitor_isDisposed := true |}.

(** Instantiation options for [EditorHandler]. *)
Record IOptions : Type := mkIOptions {
  debuggerService : Service;
  editor : option IEditor;
  path : option string
}.

(** The fields of a handler. [self] identifies the object (and its bound
    [onGutterClick] listener); [connections] are the signal connections made
    by the handler. *)
Record EditorHandler : Type := mkEditorHandler {
  self : nat;
  isDisposed : bool;
  _id : string;
  _path : option string;
  _editor : option IEditor;
  _debuggerModel : option Model;
  _breakpointsModel : option BreakpointsModel;
  _debuggerService : Service;
  _editorMonitor : option ActivityMonitor;
  connections : list Connection
}.

Definition set_isDisposed (v : bool) (h : EditorHandler) : EditorHandler :=
  {| self := self h; isDisposed := v; _id := _id h; _path := _path h;
     _editor := _editor h; _debuggerModel := _debuggerModel h;
     _breakpointsModel := _breakpointsModel h;
     _debuggerService := _debuggerService h;
     _editorMonitor := _editorMonitor h; connections := connections h |}.

Definition set__editor (v : option IEditor) (h : EditorHandler) : EditorHandler :=
  {| self := self h; isDisposed := isDisposed h; _id := _id h; _path := _path h;
     _editor := v; _debuggerModel := _debuggerModel h;
     _breakpointsModel := _breakpointsModel h;
     _debuggerService := _debuggerService h;
     _editorMonitor := _editorMonitor h; connections := connections h |}.

Definition set__debuggerModel (v : option Model) (h : EditorHandler) : EditorHandler :=
  {| self := self h; isDisposed := isDisposed h; _id := _id h; _path := _path h;
     _editor := _editor h; _debuggerModel := v;
     _breakpointsModel := _breakpointsModel h;
     _debuggerService := _debuggerService h;
     _editorMonitor := _editorMonitor h; connections := connections h |}.

Definition set__breakpointsModel (v : option BreakpointsModel) (h : EditorHandler)
    : EditorHandler :=
  {| self := self h; isDisposed := isDisposed h; _id := _id h; _path := _path h;
     _editor := _editor h; _debuggerModel := _debuggerModel h;
     _breakpointsModel := v;
     _debuggerService := _debuggerService h;
     _editorMonitor := _editorMonitor h; connections := connections h |}.

Definition set__debuggerService (v : Service) (h : EditorHandler) : EditorHandler :=
  {| self := self h; isDisposed := isDisposed h; _id := _id h; _path := _path h;
     _editor := _editor h; _debuggerModel := _debuggerModel h;
     _breakpointsModel := _breakpointsModel h;
     _debuggerService := v;
     _editorMonitor := _editorMonitor h; connections := connections h |}.

Definition set__editorMonitor (v : option ActivityMonitor) (h : EditorHandler)
    : EditorHandler :=
  {| self := self h; isDisposed := isDisposed h; _id := _id h; _path := _path h;
     _editor := _editor h; _debuggerModel := _debuggerModel h;
     _breakpointsModel := _breakpointsModel h;
     _debuggerService := _debuggerService h;
     _editorMonitor := v; connections := connections h |}.

Definition set_connections (v : list Connection) (h : EditorHandler) : EditorHandler :=
  {| self := self h; isDisposed := isDisposed h; _id := _id h; _path := _path h;
     _editor := _editor h; _debuggerModel := _debuggerModel h;
     _breakpointsModel := _breakpointsModel h;
     _debuggerService := _debuggerService h;
     _editorMonitor := _editorMonitor h; connections := v |}.

(** [signal.connect(slot)] and [signal.connect(slot, this)]. *)
Definition connect (s : SignalName) (this : bool) (h : EditorHandler) : EditorHandler :=
  set_connections (connections h ++ [mkConnection s this]) h.

(** [Signal.clearData(this)]: every connection in which the handler is the
    receiver is removed. *)
Definition Signal_clearData (h : EditorHandler) : EditorHandler :=
  set_connections (filter (λ c, thisArg c = false) (connections h)) h.

(** *** Static functions *)

(** Remove all line highlighting indicators for the given editor. *)
Definition clearHighlight (editor : option IEditor) : option IEditor :=
  match editor with
  | None => editor
  | Some cmEditor =>
      if CodeEditor.isDisposed cmEditor then editor
      else
        Some (set_editor
                (CodeMirror.eachLine (CodeEditor.editor cmEditor)
                   (CodeMirror.removeLineClass_line "wrap" LINE_HIGHLIGHT_CLASS))
                cmEditor)
  end.

(** Highlight the current line of the frame in the given editor. *)
Definition showCurrentLine (editor : option IEditor) (line : Z)
    : Completion (option IEditor) :=
  let editor := clearHighlight editor in
  cmEditor ← deref editor;
  Normal (Some (set_editor
                  (CodeMirror.addLineClass (CodeEditor.editor cmEditor) (line - 1)
                     "wrap" LINE_HIGHLIGHT_CLASS)
                  cmEditor)).

(** The callback [clearGutter] passes to [eachLine]:
    [if (line.gutterMarkers) setGutterMarker(line, 'breakpoints', null)]. *)
Definition clearGutter_line (line : CodeMirror.Line) : CodeMirror.Line :=
  match CodeMirror.gutterMarkers line with
  | Some _ => CodeMirror.setGutterMarker_line "breakpoints" None line
  | None => line
  end.

(** Remove the breakpoint markers of the given editor. *)
Definition clearGutter (editor : option IEditor) : option IEditor :=
  match editor with
  | None => editor
  | Some cmEditor =>
      Some (set_editor
              (CodeMirror.eachLine (CodeEditor.editor cmEditor) clearGutter_line)
              cmEditor)
  end.

(** [!this._editor || this._editor.isDisposed] *)
Definition editor_gone (editor : option IEditor) : bool :=
  match editor with
  | None => true
  | Some e => CodeEditor.isDisposed e
  end.

(** *** Methods *)

(** Get the breakpoints for the editor using its content (code), or its
    path (if it exists). *)
Definition _getBreakpoints (h : EditorHandler) : Completion (list IDebugger.IBreakpoint) :=
  e ← deref (_editor h);
  let code := model_value_text e in
  m ← deref (_debuggerModel h);
  Normal (getBreakpoints (breakpoints m)
            (default (getCodeId (_debuggerService h) code) (_path h))).

(** Add the breakpoints to the editor. *)
Definition _addBreakpointsToEditor (h : EditorHandler) : Completion EditorHandler :=
  let editor := _editor h in
  breakpoints ← _getBreakpoints h;
  if decide (_id h ≠ session_client_path (_debuggerService h)) then Normal h
  else
    let editor := clearGutter editor in
    editor ← forEach
      (λ (editor : option IEditor) (breakpoint : IDebugger.IBreakpoint),
         e ← deref editor;
         Normal (Some (set_editor
                         (CodeMirror.setGutterMarker (CodeEditor.editor e)
                            (IDebugger.line breakpoint - 1) "breakpoints"
                            (Some Private.createMarkerNode))
                         e)))
      breakpoints editor;
    Normal (set__editor editor h).

(** Retrieve the breakpoints from the editor. *)
Definition _getBreakpointsFromEditor (h : EditorHandler)
    : Completion (list Private.ILineInfo) :=
  editor ← deref (_editor h);
  forEach
    (λ (lines : list Private.ILineInfo) (i : Z),
       info ← deref (CodeMirror.lineInfo (CodeEditor.editor editor) i);
       Normal (match CodeMirror.li_gutterMarkers info with
               | Some _ => lines ++ [info]
               | None => lines
               end))
    (seqZ 0 (CodeMirror.lineCount (CodeEditor.editor editor))) [].

(** Send the breakpoints from the editor UI via the debug service. *)
Definition _sendEditorBreakpoints (h : EditorHandler) : Completion EditorHandler :=
  e ← deref (_editor h);
  if CodeEditor.isDisposed e then Normal h
  else
    infos ← _getBreakpointsFromEditor h;
    let breakpoints :=
      map (λ lineInfo,
             Private.createBreakpoint
               (session_client_name (_debuggerService h))
               (CodeMirror.li_line lineInfo + 1))
          infos in
    Normal (set__debuggerService
              (void (updateBreakpoints (model_value_text e) breakpoints (_path h)
                       (_debuggerService h)))
              h).

(** Handle a click on the gutter. [editor] is the CodeMirror instance the
    click originated from, [lineNumber] the line of the click event.
    [breakpoints.push] extends the array the query returned; the model being
    an opaque query here, only the array submitted to the service is
    followed. *)
Definition onGutterClick (h : EditorHandler) (editor : CodeMirror.Editor)
    (lineNumber : Z) : Completion EditorHandler :=
  match CodeMirror.lineInfo editor lineNumber with
  | None => Normal h
  | Some info =>
      if decide (_id h ≠ session_client_path (_debuggerService h)) then Normal h
      else
        let remove := bool_decide (is_Some (CodeMirror.li_gutterMarkers info)) in
        breakpoints ← _getBreakpoints h;
        let breakpoints :=
          if remove then
            filter (λ ele, IDebugger.line ele ≠ CodeMirror.li_line info + 1) breakpoints
          else
            breakpoints ++
              [Private.createBreakpoint
                 (default (session_client_name (_debuggerService h)) (_path h))
                 (CodeMirror.li_line info + 1)] in
        e ← deref (_editor h);
        Normal (set__debuggerService
                  (void (updateBreakpoints (model_value_text e) breakpoints (_path h)
                           (_debuggerService h)))
                  h)
  end.

(** Setup the editor. *)
Definition _setupEditor (h : EditorHandler) : Completion EditorHandler :=
  if editor_gone (_editor h) then Normal h
  else
    h ← _addBreakpointsToEditor h;
    editor ← deref (_editor h);
    let editor := CodeEditor.setOption_lineNumbers true editor in
    let editor :=
      set_editor
        (CodeMirror.setOption_gutters ["CodeMirror-linenumbers"; "breakpoints"]
           (CodeEditor.editor editor))
        editor in
    let editor :=
      set_editor (CodeMirror.on_gutterClick (self h) (CodeEditor.editor editor))
        editor in
    Normal (set__editor (Some editor) h).

(** Clear the editor by removing visual elements and handlers. *)
Definition _clearEditor (h : EditorHandler) : EditorHandler :=
  if editor_gone (_editor h) then h
  else
    match clearGutter (clearHighlight (_editor h)) with
    | None => h
    | Some editor =>
        let editor := CodeEditor.setOption_lineNumbers false editor in
        let editor :=
          set_editor (CodeMirror.setOption_gutters [] (CodeEditor.editor editor))
            editor in
        let editor :=
          set_editor (CodeMirror.off_gutterClick (self h) (CodeEditor.editor editor))
            editor in
        set__editor (Some editor) h
    end.

(** Handle when the debug model changes. *)
Definition _onModelChanged (h : EditorHandler) : EditorHandler :=
  let h := set__debuggerModel (model (_debuggerService h)) h in
  match _debuggerModel h with
  | None => h
  | Some m =>
      let h := set__breakpointsModel (Some (breakpoints m)) h in
      let h := connect currentFrameChanged false h in
      let h := connect changed false h in
      connect restored false h
  end.

(** The slots connected by [_onModelChanged]. The [changed] and [restored]
    slots are [async]: a [Throw] is the rejection of the promise they
    return. *)
Definition on_currentFrameChanged (h : EditorHandler) : EditorHandler :=
  set__editor (clearHighlight (_editor h)) h.

Definition on_changed (h : EditorHandler) : Completion EditorHandler :=
  if editor_gone (_editor h) then Normal h
  else _addBreakpointsToEditor h.

Definition on_restored (h : EditorHandler) : Completion EditorHandler :=
  if editor_gone (_editor h) then Normal h
  else _addBreakpointsToEditor h.

(** The slot connected to the monitor's [activityStopped]: the debounce
    elapsed after the last edit. *)
Definition on_activityStopped (h : EditorHandler) : Completion EditorHandler :=
  _sendEditorBreakpoints h.

(** Dispose the handler. *)
Definition dispose (h : EditorHandler) : Completion EditorHandler :=
  if isDisposed h then Normal h
  else
    monitor ← deref (_editorMonitor h);
    let h := set__editorMonitor (Some (ActivityMonitor_dispose monitor)) h in
    let h := _clearEditor h in
    let h := set_isDisposed true h in
    Normal (Signal_clearData h).

(** Instantiate a new EditorHandler; [this] is the identity of the new
    object. *)
Definition constructor (this : nat) (options : IOptions) : Completion EditorHandler :=
  let h :=
    {| self := this; isDisposed := false;
       _id := session_client_path (debuggerService options);
       _path := path options;
       _editor := editor options;
       _debuggerModel := None; _breakpointsModel := None;
       _debuggerService := debuggerService options;
       _editorMonitor := None; connections := [] |} in
  let h := _onModelChanged h in
  let h := connect modelChanged true h in
  e ← deref (_editor h);
  let h :=
    set__editorMonitor
      (Some {| timeout := EDITOR_CHANGED_TIMEOUT; monitor_isDisposed := false |}) h in
  let h := connect activityStopped true h in
  _setupEditor h.

End EditorHandler.

(** ** The breakpoints panel *)

Module Breakpoints.

Import Debugger.

(** A toolbar button and the widgets of the panel. *)
Record ToolbarButton : Type := mkToolbarButton {
  iconClassName : string;
  tooltip : string
}.

Inductive Widget : Type :=
| BreakpointsHeader (toolbar : list (string * ToolbarButton))
| CallstackBody (model : option BreakpointsModel).

(** The panel: its child widgets, its CSS classes, and the service captured
    by the button's [onClick]. *)
Record Breakpoints : Type := mkBreakpoints {
  widgets : list Widget;
  classes : gset string;
  service : Service
}.

(** Instantiation options for [Breakpoints]. *)
Record IOptions : Type := mkIOptions {
  opt_model : option BreakpointsModel;
  opt_service : Service
}.

(** Instantiate a new Breakpoints Panel. *)
Definition constructor (options : IOptions) : Breakpoints :=
  let header :=
    BreakpointsHeader
      [("closeAll",
        {| iconClassName := "jp-CloseAllIcon";
           tooltip := "Remove All Breakpoints" |})] in
  let body := CallstackBody (opt_model options) in
  {| widgets := [header; body];
     classes := {[ "jp-DebuggerBreakpoints" ]};
     service := opt_service options |}.

(** The [onClick] of the ['closeAll'] button:
    [() => { void service.clearBreakpoints(); }]. *)
Definition onClick (p : Breakpoints) : Completion Breakpoints :=
  Normal {| widgets := widgets p; classes := classes p;
            service := void (clearBreakpoints (service p)) |}.

End Breakpoints.

(** ** Events delivered to a handler

    The event loop delivers one event at a time to the listener or slot the
    handler connected for it. *)

Inductive Event : Type :=
| GutterClick (editor : CodeMirror.Editor) (lineNumber : Z)
| ActivityStopped
| BreakpointsChanged
| BreakpointsRestored
| CurrentFrameChanged
| ModelChanged
| Dispose.

Definition handle (h : EditorHandler.EditorHandler) (ev : Event)
    : Completion EditorHandler.EditorHandler :=
  match ev with
  | GutterClick editor lineNumber => EditorHandler.onGutterClick h editor lineNumber
  | ActivityStopped => EditorHandler.on_activityStopped h
  | BreakpointsChanged => EditorHandler.on_changed h
  | BreakpointsRestored => EditorHandler.on_restored h
  | CurrentFrameChanged => Normal (EditorHandler.on_currentFrameChanged h)
  | ModelChanged => Normal (EditorHandler._onModelChanged h)
  | Dispose => EditorHandler.dispose h
  end.

(** ** Observations used in the statements *)

(** The marker a line carries in the ['breakpoints'] gutter. *)
Definition breakpoint_marker (l : CodeMirror.Line) : option CodeMirror.MarkerNode :=
  CodeMirror.gutterMarkers l ≫= (.!! "breakpoints").

(** Line [i] (0-indexed) of the document carries some gutter marker:
    [lineInfo(i).gutterMarkers] is not [null]. *)
Definition line_marked (cm : CodeMirror.Editor) (i : Z) : Prop :=
  is_Some (CodeMirror.lines cm !! Z.to_nat i ≫= CodeMirror.gutterMarkers).

#[global] Instance line_marked_dec cm i : Decision (line_marked cm i).
Proof. unfold line_marked. apply _. Defined.

(** The 0-indexed lines carrying a gutter marker, in document order. *)
Definition marked_lines (cm : CodeMirror.Editor) : list Z :=
  filter (line_marked cm) (seqZ 0 (CodeMirror.lineCount cm)).

(** The line carries the current-line highlight. *)
Definition highlighted (l : CodeMirror.Line) : Prop :=
  LINE_HIGHLIGHT_CLASS ∈ CodeMirror.wrapClass l.

#[global] Instance highlighted_dec l : Decision (highlighted l).
Proof. unfold highlighted. apply _. Defined.

(** Exactly the 0-indexed line [n] of the document is highlighted. *)
Definition only_highlighted (cm : CodeMirror.Editor) (n : Z) : Prop :=
  ∀ (i : nat) (l : CodeMirror.Line),
    CodeMirror.lines cm !! i = Some l → (highlighted l ↔ Z.of_nat i = n).

(** Line [i] (0-indexed) of the document is highlighted. *)
Definition line_highlighted (cm : CodeMirror.Editor) (i : Z) : Prop :=
  match CodeMirror.lines cm !! Z.to_nat i with
  | Some l => highlighted l
  | None => False
  end.

#[global] Instance line_highlighted_dec cm i : Decision (line_highlighted cm i).
Proof. unfold line_highlighted. destruct (_ !! _); apply _. Defined.

(** The 0-indexed lines that are highlighted, in document order. *)
Definition highlighted_lines (cm : CodeMirror.Editor) : list Z :=
  filter (line_highlighted cm) (seqZ 0 (CodeMirror.lineCount cm)).

(** A breakpoint record as the fragment creates them. *)
Definition created_by_fragment (bp : IDebugger.IBreakpoint) : Prop :=
  IDebugger.active bp = true ∧ IDebugger.verified bp = true ∧
  dom (IDebugger.source bp) = {[ "name" ]}.

(** The breakpoint set the handler currently reads from the model (empty
    when the read fails). *)
Definition current_breakpoints (h : EditorHandler.EditorHandler)
    : list IDebugger.IBreakpoint :=
  match EditorHandler._getBreakpoints h with
  | Normal bps => bps
  | Throw _ => []
  end.

(** ** Sample data *)

Module Sample.

Import EditorHandler.

Definition plain (t : string) : CodeMirror.Line :=
  CodeMirror.mkLine t None ∅ ∅ ∅.

Definition marked (t : string) : CodeMirror.Line :=
  CodeMirror.mkLine t (Some {[ "breakpoints" := Private.createMarkerNode ]}) ∅ ∅ ∅.

Definition lit (t : string) : CodeMirror.Line :=
  CodeMirror.mkLine t None ∅ ∅ {[ LINE_HIGHLIGHT_CLASS ]}.

(** Three lines; line 1 (0-indexed) carries a breakpoint marker. *)
Definition cm_marked : CodeMirror.Editor :=
  CodeMirror.mkEditor [plain "a = 1"; marked "b = 2"; plain "c = 3"] true
    ["CodeMirror-linenumbers"; "breakpoints"] [7%nat].

(** Three lines; line 1 (0-indexed) is highlighted. *)
Definition cm_lit : CodeMirror.Editor :=
  CodeMirror.mkEditor [plain "a = 1"; lit "b = 2"; plain "c = 3"] true
    ["CodeMirror-linenumbers"; "breakpoints"] [7%nat].

Definition editor_live : CodeEditor.IEditor :=
  CodeEditor.mkIEditor false cm_marked "a = 1\nb = 2\nc = 3".

Definition editor_disposed : CodeEditor.IEditor :=
  CodeEditor.mkIEditor true cm_marked "a = 1\nb = 2\nc = 3".

Definition editor_lit_live : CodeEditor.IEditor :=
  CodeEditor.mkIEditor false cm_lit "a = 1\nb = 2\nc = 3".

Definition editor_lit_disposed : CodeEditor.IEditor :=
  CodeEditor.mkIEditor true cm_lit "a = 1\nb = 2\nc = 3".

(** A model holding breakpoints at lines 1 and 3 of the source ["foo.py"]. *)
Definition bpModel : Debugger.BreakpointsModel :=
  Debugger.mkBreakpointsModel
    (λ id, if decide (id = "foo.py")
           then [Private.createBreakpoint "foo.py" 1;
                 Private.createBreakpoint "foo.py" 3]
           else []).

Definition service : Debugger.Service :=
  Debugger.mkService "session-1" "kernel-1" (Some (Debugger.mkModel bpModel))
    (λ code, String.append "hash:" code) Debugger.Fulfilled [] 0.

(** The same service after the active session changed. *)
Definition service_other : Debugger.Service :=
  Debugger.mkService "session-2" "kernel-2" (Some (Debugger.mkModel bpModel))
    (λ code, String.append "hash:" code) Debugger.Fulfilled [] 0.

Definition handler_of (e : option CodeEditor.IEditor) (s : Debugger.Service)
    : EditorHandler :=
  {| self := 7; isDisposed := false; _id := "session-1"; _path := Some "foo.py";
     _editor := e;
     _debuggerModel := Some (Debugger.mkModel bpModel);
     _breakpointsModel := Some bpModel;
     _debuggerService := s;
     _editorMonitor :=
       Some {| timeout := EDITOR_CHANGED_TIMEOUT; monitor_isDisposed := false |};
     connections :=
       [mkConnection currentFrameChanged false; mkConnection changed false;
        mkConnection restored false; mkConnection modelChanged true;
        mkConnection activityStopped true] |}.

Definition handler : EditorHandler := handler_of (Some editor_live) service.

Definition handler_stale : EditorHandler := handler_of (Some editor_live) service_other.

Definition panel : Breakpoints.Breakpoints :=
  Breakpoints.constructor (Breakpoints.mkIOptions (Some bpModel) service).

End Sample.

(** ** Further observations *)

(** The marker a line carries in the gutter [gutterID]. *)
Definition gutter_marker (gutterID : string) (l : CodeMirror.Line)
    : option CodeMirror.MarkerNode :=
  CodeMirror.gutterMarkers l ≫= (.!! gutterID).

(** Position [i] is the line some breakpoint of [bps] resolves to in [cm]:
    its line number minus one, clipped to the document. *)
Definition reached (cm : CodeMirror.Editor) (bps : list IDebugger.IBreakpoint)
    (i : nat) : Prop :=
  Exists (λ bp, Z.to_nat (CodeMirror.clipLine cm (IDebugger.line bp - 1)) = i) bps.

#[global] Instance reached_dec cm bps i : Decision (reached cm bps i).
Proof. unfold reached. apply _. Defined.

(** The line found at position [i] once the markers of [bps] are set. *)
Definition mark_line (cm : CodeMirror.Editor) (bps : list IDebugger.IBreakpoint)
    (i : nat) (l : CodeMirror.Line) : CodeMirror.Line :=
  if decide (reached cm bps i) then
    CodeMirror.setGutterMarker_line "breakpoints" (Some Private.createMarkerNode) l
  else l.

(** The line found at position [i] after the gutter was cleared and the
    markers of [bps] were set. *)
Definition render_line (cm : CodeMirror.Editor) (bps : list IDebugger.IBreakpoint)
    (i : nat) (l : CodeMirror.Line) : CodeMirror.Line :=
  mark_line cm bps i (EditorHandler.clearGutter_line l).

(** Delivery of a sequence of events, one after the other. *)
Definition run (h : EditorHandler.EditorHandler) (evs : list Event)
    : Completion EditorHandler.EditorHandler :=
  forEach handle evs h.

(** The service as a handler may leave it: more requests in the log, the
    session and the count of [clearBreakpoints] requests as they were. (The
    breakpoints the model holds are not part of this relation: a click pushes
    onto the array the model's query returned.) *)
Definition service_extends (s s' : Debugger.Service) : Prop :=
  Debugger.session_client_path s' = Debugger.session_client_path s ∧
  Debugger.session_client_name s' = Debugger.session_client_name s ∧
  Debugger.getCodeId s' = Debugger.getCodeId s ∧
  Debugger.promise s' = Debugger.promise s ∧
  Debugger.clearBreakpoints_count s' = Debugger.clearBreakpoints_count s ∧
  ∃ calls, Debugger.updateBreakpoints_log s' = Debugger.updateBreakpoints_log s ++ calls.

(** The editor as a handler may leave it: the same reference ([null] or
    not), disposed or not as before, with the same text model and the same
    text on every line. *)
Definition editor_kept (o o' : option CodeEditor.IEditor) : Prop :=
  match o, o' with
  | None, None => True
  | Some e, Some e' =>
      CodeEditor.isDisposed e' = CodeEditor.isDisposed e ∧
      CodeEditor.model_value_text e' = CodeEditor.model_value_text e ∧
      map CodeMirror.text (CodeMirror.lines (CodeEditor.editor e')) =
        map CodeMirror.text (CodeMirror.lines (CodeEditor.editor e))
  | _, _ => False
  end.

(** What every event preserves of a handler. *)
Definition evolves (h h' : EditorHandler.EditorHandler) : Prop :=
  EditorHandler.self h' = EditorHandler.self h ∧
  EditorHandler._id h' = EditorHandler._id h ∧
  EditorHandler._path h' = EditorHandler._path h ∧
  (EditorHandler.isDisposed h = true → EditorHandler.isDisposed h' = true) ∧
  (is_Some (EditorHandler._editorMonitor h) →
   is_Some (EditorHandler._editorMonitor h')) ∧
  service_extends (EditorHandler._debuggerService h) (EditorHandler._debuggerService h') ∧
  editor_kept (EditorHandler._editor h) (EditorHandler._editor h').

(** The events on which the handler sends a request to the service. *)
Definition sends_request (ev : Event) : bool :=
  match ev with
  | GutterClick _ _ | ActivityStopped => true
  | _ => false
  end.

(** The events on which the handler writes to the editor. *)
Definition writes_editor (ev : Event) : bool :=
  match ev with
  | BreakpointsChanged | BreakpointsRestored | CurrentFrameChanged | Dispose => true
  | _ => false
  end.

(** The service with [model] set to [m]. *)
Definition service_with_model (m : option Debugger.Model) (s : Debugger.Service)
    : Debugger.Service :=
  {| Debugger.session_client_path := Debugger.session_client_path s;
     Debugger.session_client_name := Debugger.session_client_name s;
     Debugger.model := m; Debugger.getCodeId := Debugger.getCodeId s;
     Debugger.promise := Debugger.promise s;
     Debugger.updateBreakpoints_log := Debugger.updateBreakpoints_log s;
     Debugger.clearBreakpoints_count := Debugger.clearBreakpoints_count s |}.

(** ** More sample data *)

Module Cases.

Import EditorHandler.

(** A line carrying a marker of another gutter. *)
Definition linted (t : string) : CodeMirror.Line :=
  CodeMirror.mkLine t (Some {[ "lint" := CodeMirror.mkMarkerNode "div" "lint-error" "!" ]})
    ∅ ∅ ∅.

(** Three lines: a lint marker on line 0, a breakpoint marker on line 1. *)
Definition cm_linted : CodeMirror.Editor :=
  CodeMirror.mkEditor [linted "a = 1"; Sample.marked "b = 2"; Sample.plain "c = 3"]
    false [] [].

Definition editor_linted : CodeEditor.IEditor :=
  CodeEditor.mkIEditor false cm_linted "a = 1\nb = 2\nc = 3".

(** Three plain lines, no option set, no listener. *)
Definition cm_plain : CodeMirror.Editor :=
  CodeMirror.mkEditor [Sample.plain "a = 1"; Sample.plain "b = 2"; Sample.plain "c = 3"]
    false [] [].

Definition editor_plain : CodeEditor.IEditor :=
  CodeEditor.mkIEditor false cm_plain "a = 1\nb = 2\nc = 3".

Definition options_plain : IOptions :=
  mkIOptions Sample.service (Some editor_plain) (Some "foo.py").

(** The sample service without a debugger model. *)
Definition service_no_model : Debugger.Service :=
  service_with_model None Sample.service.

(** A model holding one breakpoint at line 10 of the source ["foo.py"]. *)
Definition bpModel_far : Debugger.BreakpointsModel :=
  Debugger.mkBreakpointsModel
    (λ id, if decide (id = "foo.py")
           then [Private.createBreakpoint "foo.py" 10]
           else []).

Definition service_far : Debugger.Service :=
  service_with_model (Some (Debugger.mkModel bpModel_far)) Sample.service.

(** A handler bound to the active session whose three-line editor shows
    ["foo.py"] while the model holds a breakpoint at line 10. *)
Definition handler_far : EditorHandler :=
  {| self := 7; isDisposed := false; _id := "session-1"; _path := Some "foo.py";
     _editor := Some Sample.editor_live;
     _debuggerModel := Some (Debugger.mkModel bpModel_far);
     _breakpointsModel := Some bpModel_far;
     _debuggerService := service_far;
     _editorMonitor :=
       Some {| timeout := EDITOR_CHANGED_TIMEOUT; monitor_isDisposed := false |};
     connections := connections Sample.handler |}.

End Cases.

(** * Properties *)

Import EditorHandler.

(** ** The definitions on the sample data *)

Example lineInfo_outside_document :
  CodeMirror.lineInfo Sample.cm_marked 3 = None ∧
  CodeMirror.lineInfo Sample.cm_marked (-1) = None.
Proof. split; reflexivity. Qed.

Example marked_lines_sample : marked_lines Sample.cm_marked = [1].
Proof. vm_compute. reflexivity. Qed.

Example gutter_click_outside_document :
  onGutterClick Sample.handler Sample.cm_marked 3 = Normal Sample.handler.
Proof. reflexivity. Qed.

Example constructor_sample :
  ∃ h e,
    constructor 7 (mkIOptions Sample.service (Some Sample.editor_live) (Some "foo.py"))
      = Normal h ∧
    _editor h = Some e ∧
    marked_lines (CodeEditor.editor e) = [0; 2] ∧
    CodeMirror.gutterClick (CodeEditor.editor e) = [7%nat; 7%nat] ∧
    connections h = connections Sample.handler ∧
    _editorMonitor h = _editorMonitor Sample.handler.
Proof.
  eexists. eexists. split; [vm_compute; reflexivity|].
  split; [reflexivity|]. repeat split; vm_compute; reflexivity.
Qed.

Example constructor_null_editor :
  constructor 7 (mkIOptions Sample.service None None) = Throw TypeError.
Proof. reflexivity. Qed.

(** ** Lemmas on the editor instance *)

Lemma lineInfo_Some (cm : CodeMirror.Editor) (n : Z) (info : CodeMirror.LineInfo) :
  CodeMirror.lineInfo cm n = Some info →
  0 ≤ n < CodeMirror.lineCount cm ∧
  CodeMirror.li_line info = n ∧
  ∃ l, CodeMirror.lines cm !! Z.to_nat n = Some l ∧
       CodeMirror.li_gutterMarkers info = CodeMirror.gutterMarkers l.
Proof.
  unfold CodeMirror.lineInfo, CodeMirror.isLine.
  destruct (0 <=? n) eqn:H0; simpl; [|discriminate].
  destruct (n <? CodeMirror.lineCount cm) eqn:H1; [|discriminate].
  destruct (CodeMirror.lines cm !! Z.to_nat n) as [l|] eqn:Hl; [|discriminate].
  intros [= <-]. simpl. repeat split; try lia. eauto.
Qed.

Lemma lineInfo_in_range (cm : CodeMirror.Editor) (n : Z) :
  0 ≤ n < CodeMirror.lineCount cm →
  ∃ info, CodeMirror.lineInfo cm n = Some info.
Proof.
  intros Hn. unfold CodeMirror.lineInfo, CodeMirror.isLine.
  replace (0 <=? n) with true by (symmetry; apply Z.leb_le; lia).
  replace (n <? CodeMirror.lineCount cm) with true by (symmetry; apply Z.ltb_lt; lia).
  simpl. destruct (CodeMirror.lines cm !! Z.to_nat n) as [l|] eqn:Hl; [eauto|].
  apply lookup_ge_None in Hl. unfold CodeMirror.lineCount in Hn. lia.
Qed.

Lemma lineInfo_marked (cm : CodeMirror.Editor) (n : Z) (info : CodeMirror.LineInfo) :
  CodeMirror.lineInfo cm n = Some info →
  (is_Some (CodeMirror.li_gutterMarkers info) ↔ line_marked cm n).
Proof.
  intros H. apply lineInfo_Some in H as (_ & _ & l & Hl & ->).
  unfold line_marked. rewrite Hl. reflexivity.
Qed.

(** The loop of [_getBreakpointsFromEditor] over line numbers of the
    document never dereferences [null] and keeps the marked lines. *)
Lemma collect_marked (cm : CodeMirror.Editor) (idx : list Z) :
  Forall (λ i, 0 ≤ i < CodeMirror.lineCount cm) idx →
  ∀ acc : list CodeMirror.LineInfo,
  ∃ infos,
    forEach
      (λ (lines : list CodeMirror.LineInfo) (i : Z),
         info ← deref (CodeMirror.lineInfo cm i);
         Normal (match CodeMirror.li_gutterMarkers info with
                 | Some _ => lines ++ [info]
                 | None => lines
                 end))
      idx acc = Normal (acc ++ infos) ∧
    map CodeMirror.li_line infos = filter (line_marked cm) idx.
Proof.
  induction 1 as [|i idx Hi _ IH]; intros acc.
  - exists []. rewrite app_nil_r. split; reflexivity.
  - destruct (lineInfo_in_range cm i Hi) as [info Hinfo].
    pose proof (lineInfo_marked cm i info Hinfo) as Hm.
    pose proof (lineInfo_Some cm i info Hinfo) as (_ & Hline & _).
    cbn [forEach]. rewrite Hinfo.
    destruct (CodeMirror.li_gutterMarkers info) as [g|] eqn:Hg.
    + rewrite filter_cons_True by (apply Hm; eauto).
      destruct (IH (acc ++ [info])) as (infos & Hrun & Hmap).
      exists (info :: infos). split.
      * cbn. rewrite Hg. cbn in Hrun. rewrite Hrun, <- app_assoc. reflexivity.
      * cbn [map]. rewrite Hline, Hmap. reflexivity.
    + rewrite filter_cons_False
        by (intros Hc; apply Hm in Hc; destruct Hc as [? Hc]; discriminate).
      destruct (IH acc) as (infos & Hrun & Hmap).
      exists infos. split; [|exact Hmap].
      cbn. rewrite Hg. exact Hrun.
Qed.

Lemma getBreakpointsFromEditor_marked (h : EditorHandler) (e : CodeEditor.IEditor) :
  _editor h = Some e →
  ∃ infos,
    _getBreakpointsFromEditor h = Normal infos ∧
    map CodeMirror.li_line infos = marked_lines (CodeEditor.editor e).
Proof.
  intros He. unfold _getBreakpointsFromEditor. rewrite He. cbn.
  destruct (collect_marked (CodeEditor.editor e)
              (seqZ 0 (CodeMirror.lineCount (CodeEditor.editor e)))) with (acc := @nil CodeMirror.LineInfo)
    as (infos & Hrun & Hmap).
  - apply Forall_forall. intros i Hi. apply elem_of_seqZ in Hi. lia.
  - exists infos. split; [exact Hrun | exact Hmap].
Qed.

(** Membership in [marked_lines]. *)
Lemma elem_of_marked_lines (cm : CodeMirror.Editor) (i : Z) :
  i ∈ marked_lines cm ↔
  0 ≤ i < CodeMirror.lineCount cm ∧
  ∃ l, CodeMirror.lines cm !! Z.to_nat i = Some l ∧
       is_Some (CodeMirror.gutterMarkers l).
Proof.
  unfold marked_lines. rewrite list_elem_of_filter, elem_of_seqZ.
  unfold line_marked. split.
  - intros [Hm Hr]. split; [lia|].
    destruct (CodeMirror.lines cm !! Z.to_nat i) as [l|]; cbn in Hm.
    + eauto.
    + destruct Hm; discriminate.
  - intros [Hr (l & Hl & Hm)]. split; [|lia]. rewrite Hl. exact Hm.
Qed.

(** ** Reading the model *)

Lemma getBreakpoints_Normal (h : EditorHandler) (e : CodeEditor.IEditor)
    (m : Debugger.Model) :
  _editor h = Some e →
  _debuggerModel h = Some m →
  _getBreakpoints h =
    Normal (Debugger.getBreakpoints (Debugger.breakpoints m)
              (default (Debugger.getCodeId (_debuggerService h)
                          (CodeEditor.model_value_text e))
                       (_path h))).
Proof. intros He Hm. unfold _getBreakpoints. rewrite He, Hm. reflexivity. Qed.

Lemma getBreakpoints_Normal_inv (h : EditorHandler) (bps : list IDebugger.IBreakpoint) :
  _getBreakpoints h = Normal bps →
  ∃ e m, _editor h = Some e ∧ _debuggerModel h = Some m.
Proof.
  unfold _getBreakpoints.
  destruct (_editor h) as [e|]; [|discriminate].
  destruct (_debuggerModel h) as [m|]; [|discriminate].
  eauto.
Qed.

(** C8: the key under which the handler reads the breakpoint set is the
    explicit path when the handler was given one, whatever the editor's
    text, and otherwise [getCodeId] of the editor's current text. *)
Theorem getBreakpoints_source_identity (h : EditorHandler) (e : CodeEditor.IEditor)
    (m : Debugger.Model) :
  _editor h = Some e →
  _debuggerModel h = Some m →
  (∀ p, _path h = Some p →
        _getBreakpoints h =
          Normal (Debugger.getBreakpoints (Debugger.breakpoints m) p)) ∧
  (_path h = None →
        _getBreakpoints h =
          Normal (Debugger.getBreakpoints (Debugger.breakpoints m)
                    (Debugger.getCodeId (_debuggerService h)
                       (CodeEditor.model_value_text e)))).
Proof.
  intros He Hm. rewrite (getBreakpoints_Normal h e m He Hm).
  split; [intros p Hp | intros Hp]; rewrite Hp; reflexivity.
Qed.

Lemma getBreakpoints_source_identity_witness :
  _getBreakpoints Sample.handler =
    Normal (Debugger.getBreakpoints Sample.bpModel "foo.py").
Proof.
  exact (proj1 (getBreakpoints_source_identity Sample.handler Sample.editor_live
                  (Debugger.mkModel Sample.bpModel) eq_refl eq_refl)
               "foo.py" eq_refl).
Defined.

(** ** The stale-handler guard *)

(** The constructor binds the handler to the service's session path. *)
Lemma constructor_binds_session (this : nat) (options : IOptions) (h : EditorHandler) :
  constructor this options = Normal h →
  _id h = Debugger.session_client_path (debuggerService options) ∧
  _debuggerService h = debuggerService options.
Proof.
  unfold constructor, _onModelChanged. cbn.
  destruct (Debugger.model (debuggerService options)) as [m|]; cbn;
    (destruct (editor options) as [e|]; cbn; [|discriminate]);
    unfold _setupEditor; cbn;
    (destruct (CodeEditor.isDisposed e); cbn; [intros [= <-]; split; reflexivity|]);
    unfold _addBreakpointsToEditor, _getBreakpoints; cbn; try discriminate.
  destruct (decide _); cbn.
  - intros [= <-]; split; reflexivity.
  - destruct (forEach _ _ _) as [[ed|]|]; cbn; try discriminate.
    intros [= <-]; split; reflexivity.
Qed.

(** C7: a gutter click received by a handler whose bound session identity
    differs from the service's active session path is ignored: the handler,
    its editor and the service (with its log of [updateBreakpoints]
    requests) are left as they were. *)
Theorem stale_gutter_click_ignored (h : EditorHandler) (editor : CodeMirror.Editor)
    (lineNumber : Z) :
  _id h ≠ Debugger.session_client_path (_debuggerService h) →
  onGutterClick h editor lineNumber = Normal h.
Proof.
  intros Hid. unfold onGutterClick.
  destruct (CodeMirror.lineInfo editor lineNumber); [|reflexivity].
  destruct (decide _) as [_|Hn]; [reflexivity|].
  exfalso. apply Hn. exact Hid.
Qed.

Lemma stale_gutter_click_ignored_witness :
  onGutterClick Sample.handler_stale Sample.cm_marked 1 = Normal Sample.handler_stale.
Proof.
  apply (stale_gutter_click_ignored Sample.handler_stale Sample.cm_marked 1).
  vm_compute. discriminate.
Defined.

(** ** Requests sent to the service *)

(** C1: a gutter click on line [L] (0-indexed) received by a handler bound
    to the active session, for which the editor returns line info, submits
    one [updateBreakpoints] request carrying the editor's text and the
    optional path: when the line carries a gutter marker, the current
    breakpoints of the source without those at line [L + 1]; otherwise the
    current breakpoints followed by a new record at line [L + 1] named after
    the path when there is one, else after the session. *)
Theorem gutter_click_toggles_breakpoint (h : EditorHandler) (e : CodeEditor.IEditor)
    (m : Debugger.Model) (editor : CodeMirror.Editor) (L : Z) :
  _id h = Debugger.session_client_path (_debuggerService h) →
  _editor h = Some e →
  _debuggerModel h = Some m →
  is_Some (CodeMirror.lineInfo editor L) →
  let current :=
    Debugger.getBreakpoints (Debugger.breakpoints m)
      (default (Debugger.getCodeId (_debuggerService h) (CodeEditor.model_value_text e))
               (_path h)) in
  let submitted :=
    if decide (line_marked editor L) then
      filter (λ bp, IDebugger.line bp ≠ L + 1) current
    else
      current ++
        [IDebugger.mkBreakpoint (L + 1) true true
           {[ "name" := default (Debugger.session_client_name (_debuggerService h))
                                (_path h) ]}] in
  ∃ h',
    onGutterClick h editor L = Normal h' ∧
    Debugger.updateBreakpoints_log (_debuggerService h') =
      Debugger.updateBreakpoints_log (_debuggerService h) ++
        [Debugger.mkUpdateBreakpoints (CodeEditor.model_value_text e) submitted (_path h)] ∧
    _editor h' = _editor h.
Proof.
  intros Hid He Hm [info Hinfo] current submitted.
  pose proof (lineInfo_marked editor L info Hinfo) as Hmk.
  pose proof (lineInfo_Some editor L info Hinfo) as (_ & Hline & _).
  unfold onGutterClick. rewrite Hinfo.
  destruct (decide (_id h ≠ _)) as [Hn|_]; [contradiction|].
  rewrite (getBreakpoints_Normal h e m He Hm), He. cbn.
  eexists. split; [reflexivity|]. cbn. split; [|exact He].
  do 2 f_equal. rewrite Hline. subst submitted current.
  destruct (decide (line_marked editor L)) as [Hy|Hn].
  - rewrite bool_decide_eq_true_2 by (apply Hmk; exact Hy). reflexivity.
  - rewrite bool_decide_eq_false_2 by (intros Hc; apply Hn, Hmk; exact Hc).
    reflexivity.
Qed.

Lemma gutter_click_toggles_breakpoint_witness :
  ∃ h',
    onGutterClick Sample.handler Sample.cm_marked 1 = Normal h' ∧
    Debugger.updateBreakpoints_log (_debuggerService h') =
      [Debugger.mkUpdateBreakpoints "a = 1\nb = 2\nc = 3"
         [Private.createBreakpoint "foo.py" 1; Private.createBreakpoint "foo.py" 3]
         (Some "foo.py")] ∧
    _editor h' = Some Sample.editor_live.
Proof.
  apply (gutter_click_toggles_breakpoint Sample.handler Sample.editor_live
           (Debugger.mkModel Sample.bpModel) Sample.cm_marked 1);
    [reflexivity | reflexivity | reflexivity | vm_compute; eauto].
Defined.

(** C6: when the debounce elapses on a non-disposed editor, the handler
    submits one [updateBreakpoints] request carrying the editor's text, the
    optional path, and one breakpoint record per line carrying a gutter
    marker, in document order: the record of the 0-indexed line [L] is at
    line [L + 1] and is named after the session. *)
Theorem debounce_submits_marked_lines (h : EditorHandler) (e : CodeEditor.IEditor) :
  _editor h = Some e →
  CodeEditor.isDisposed e = false →
  ∃ h',
    on_activityStopped h = Normal h' ∧
    Debugger.updateBreakpoints_log (_debuggerService h') =
      Debugger.updateBreakpoints_log (_debuggerService h) ++
        [Debugger.mkUpdateBreakpoints (CodeEditor.model_value_text e)
           (map (λ L, IDebugger.mkBreakpoint (L + 1) true true
                        {[ "name" := Debugger.session_client_name (_debuggerService h) ]})
                (marked_lines (CodeEditor.editor e)))
           (_path h)] ∧
    _editor h' = _editor h ∧
    ∀ L, L ∈ marked_lines (CodeEditor.editor e) ↔
         0 ≤ L < CodeMirror.lineCount (CodeEditor.editor e) ∧
         ∃ l, CodeMirror.lines (CodeEditor.editor e) !! Z.to_nat L = Some l ∧
              is_Some (CodeMirror.gutterMarkers l).
Proof.
  intros He Hd.
  destruct (getBreakpointsFromEditor_marked h e He) as (infos & Hinfos & Hmap).
  unfold on_activityStopped, _sendEditorBreakpoints.
  rewrite He. cbn. rewrite Hd, Hinfos. cbn.
  eexists. split; [reflexivity|]. cbn. split; [|split; [exact He|]].
  - do 2 f_equal. rewrite <- Hmap, map_map. reflexivity.
  - intros L. apply elem_of_marked_lines.
Qed.

Lemma debounce_submits_marked_lines_witness :
  ∃ h',
    on_activityStopped Sample.handler = Normal h' ∧
    Debugger.updateBreakpoints_log (_debuggerService h') =
      [Debugger.mkUpdateBreakpoints "a = 1\nb = 2\nc = 3"
         [Private.createBreakpoint "kernel-1" 2] (Some "foo.py")].
Proof.
  destruct (debounce_submits_marked_lines Sample.handler Sample.editor_live
              eq_refl eq_refl) as (h' & Hrun & Hlog & _).
  exists h'. split; [exact Hrun|]. rewrite Hlog. vm_compute. reflexivity.
Defined.

(** ** Breakpoint records created by the fragment *)

Lemma createBreakpoint_created (session : string) (line : Z) :
  created_by_fragment (Private.createBreakpoint session line).
Proof.
  unfold created_by_fragment, Private.createBreakpoint. cbn.
  split; [reflexivity|]. split; [reflexivity|]. apply dom_singleton_L.
Qed.

Lemma addBreakpointsToEditor_service (h h' : EditorHandler) :
  _addBreakpointsToEditor h = Normal h' →
  _debuggerService h' = _debuggerService h.
Proof.
  unfold _addBreakpointsToEditor.
  destruct (_getBreakpoints h) as [bps|]; cbn; [|discriminate].
  destruct (decide _); [intros [= <-]; reflexivity|].
  destruct (forEach _ _ _) as [ed|]; cbn; [|discriminate].
  intros [= <-]. reflexivity.
Qed.

Lemma clearEditor_service (h : EditorHandler) :
  _debuggerService (_clearEditor h) = _debuggerService h.
Proof.
  unfold _clearEditor. destruct (editor_gone _); [reflexivity|].
  destruct (clearGutter _); reflexivity.
Qed.

Lemma dispose_service (h h' : EditorHandler) :
  dispose h = Normal h' → _debuggerService h' = _debuggerService h.
Proof.
  unfold dispose. destruct (isDisposed h); [intros [= <-]; reflexivity|].
  destruct (_editorMonitor h) as [mon|]; cbn; [|discriminate].
  intros [= <-]. cbn. rewrite clearEditor_service. reflexivity.
Qed.

Lemma onModelChanged_service (h : EditorHandler) :
  _debuggerService (_onModelChanged h) = _debuggerService h.
Proof.
  unfold _onModelChanged. cbn.
  destruct (Debugger.model (_debuggerService h)); reflexivity.
Qed.

(** C10: every breakpoint record the fragment creates has [active] and
    [verified] set and a [source] holding only [name]: whatever event a
    handler receives, each breakpoint of each request it issues is such a
    record or one of the breakpoints read from the model, and the records
    of the debounce-triggered resubmission are all created ones. *)
Theorem created_breakpoints_active_verified (h h' : EditorHandler) (ev : Event) :
  handle h ev = Normal h' →
  (∀ session line, created_by_fragment (Private.createBreakpoint session line)) ∧
  ∃ calls,
    Debugger.updateBreakpoints_log (_debuggerService h') =
      Debugger.updateBreakpoints_log (_debuggerService h) ++ calls ∧
    Forall (λ c, Forall (λ bp, created_by_fragment bp ∨ bp ∈ current_breakpoints h)
                   (Debugger.ub_breakpoints c)) calls ∧
    (ev = ActivityStopped →
     Forall (λ c, Forall created_by_fragment (Debugger.ub_breakpoints c)) calls).
Proof.
  intros Hrun. split; [exact createBreakpoint_created|].
  assert (Hnone : _debuggerService h' = _debuggerService h → ev ≠ ActivityStopped →
          ∃ calls,
            Debugger.updateBreakpoints_log (_debuggerService h') =
              Debugger.updateBreakpoints_log (_debuggerService h) ++ calls ∧
            Forall (λ c, Forall (λ bp, created_by_fragment bp ∨ bp ∈ current_breakpoints h)
                           (Debugger.ub_breakpoints c)) calls ∧
            (ev = ActivityStopped →
             Forall (λ c, Forall created_by_fragment (Debugger.ub_breakpoints c)) calls)).
  { intros -> Hev. exists []. rewrite app_nil_r.
    split; [reflexivity|]. split; [constructor|]. intros; constructor. }
  destruct ev as [editor lineNumber| | | | | |]; cbn in Hrun.
  - (* gutter click *)
    unfold onGutterClick in Hrun.
    destruct (CodeMirror.lineInfo editor lineNumber) as [info|];
      [|injection Hrun as <-; apply Hnone; [reflexivity|discriminate]].
    destruct (decide _);
      [injection Hrun as <-; apply Hnone; [reflexivity|discriminate]|].
    unfold current_breakpoints.
    destruct (_getBreakpoints h) as [bps|]; cbn in Hrun; [|discriminate].
    destruct (_editor h) as [e|]; cbn in Hrun; [|discriminate].
    injection Hrun as <-. cbn. eexists. split; [reflexivity|].
    split; [|discriminate].
    constructor; [|constructor]. cbn.
    destruct (bool_decide _).
    + apply Forall_forall. intros bp Hbp.
      apply list_elem_of_filter in Hbp as [_ Hbp]. right. exact Hbp.
    + apply Forall_app. split.
      * apply Forall_forall. intros bp Hbp. right. exact Hbp.
      * constructor; [|constructor]. left. apply createBreakpoint_created.
  - (* debounce elapsed *)
    unfold on_activityStopped, _sendEditorBreakpoints in Hrun.
    destruct (_editor h) as [e|]; cbn in Hrun; [|discriminate].
    destruct (CodeEditor.isDisposed e).
    { injection Hrun as <-. exists []. rewrite app_nil_r.
      split; [reflexivity|]. split; [constructor|]. intros; constructor. }
    destruct (_getBreakpointsFromEditor _) as [infos|]; cbn in Hrun; [|discriminate].
    injection Hrun as <-. cbn. eexists. split; [reflexivity|].
    assert (Hall : Forall created_by_fragment
              (map (λ lineInfo : CodeMirror.LineInfo,
                      Private.createBreakpoint
                        (Debugger.session_client_name (_debuggerService h))
                        (CodeMirror.li_line lineInfo + 1)) infos)).
    { apply Forall_forall. intros bp Hbp.
      apply list_elem_of_fmap in Hbp as (info & -> & _).
      apply createBreakpoint_created. }
    split.
    + constructor; [|constructor]. cbn.
      eapply Forall_impl; [exact Hall|]. intros bp Hbp. left. exact Hbp.
    + intros _. constructor; [exact Hall|constructor].
  - unfold on_changed in Hrun. apply Hnone; [|discriminate].
    destruct (editor_gone _); [injection Hrun as <-; reflexivity|].
    apply addBreakpointsToEditor_service. exact Hrun.
  - unfold on_restored in Hrun. apply Hnone; [|discriminate].
    destruct (editor_gone _); [injection Hrun as <-; reflexivity|].
    apply addBreakpointsToEditor_service. exact Hrun.
  - injection Hrun as <-. apply Hnone; [reflexivity|discriminate].
  - injection Hrun as <-. apply Hnone; [apply onModelChanged_service|discriminate].
  - apply Hnone; [apply dispose_service; exact Hrun|discriminate].
Qed.

Lemma created_breakpoints_active_verified_witness :
  ∃ calls,
    Debugger.updateBreakpoints_log
      (_debuggerService
         (set__debuggerService
            (Debugger.void
               (Debugger.updateBreakpoints "a = 1\nb = 2\nc = 3"
                  [Private.createBreakpoint "kernel-1" 2] (Some "foo.py")
                  Sample.service))
            Sample.handler)) = [] ++ calls ∧
    Forall (λ c, Forall created_by_fragment (Debugger.ub_breakpoints c)) calls.
Proof.
  destruct (created_breakpoints_active_verified Sample.handler _ ActivityStopped eq_refl)
    as (_ & calls & Hlog & _ & Hall).
  exists calls. split; [exact Hlog | exact (Hall eq_refl)].
Defined.

(** ** Lemmas on lines *)

Lemma clearGutter_unfold (e : CodeEditor.IEditor) :
  clearGutter (Some e) =
    Some (CodeEditor.set_editor
            (CodeMirror.eachLine (CodeEditor.editor e) clearGutter_line) e).
Proof. reflexivity. Qed.

Lemma clearGutter_line_marker (l : CodeMirror.Line) :
  breakpoint_marker (clearGutter_line l) = None.
Proof.
  unfold clearGutter_line, breakpoint_marker.
  destruct (CodeMirror.gutterMarkers l) as [g|] eqn:Hg; [|rewrite Hg; reflexivity].
  unfold CodeMirror.setGutterMarker_line. rewrite Hg. cbn.
  destruct (decide (delete "breakpoints" g = ∅)); cbn; [reflexivity|].
  apply lookup_delete_eq.
Qed.

Lemma clearGutter_line_wrapClass (l : CodeMirror.Line) :
  CodeMirror.wrapClass (clearGutter_line l) = CodeMirror.wrapClass l.
Proof.
  unfold clearGutter_line, CodeMirror.setGutterMarker_line.
  destruct (CodeMirror.gutterMarkers l) as [g|]; [|reflexivity].
  cbn. destruct (decide _); reflexivity.
Qed.

Lemma setGutterMarker_line_marker (v : CodeMirror.MarkerNode) (l : CodeMirror.Line) :
  breakpoint_marker (CodeMirror.setGutterMarker_line "breakpoints" (Some v) l) = Some v.
Proof. unfold breakpoint_marker. cbn. apply lookup_insert_eq. Qed.

Lemma removeLineClass_line_highlighted (l : CodeMirror.Line) :
  ¬ highlighted (CodeMirror.removeLineClass_line "wrap" LINE_HIGHLIGHT_CLASS l).
Proof.
  unfold highlighted, CodeMirror.removeLineClass_line.
  repeat case_decide; try discriminate. cbn.
  rewrite elem_of_difference, elem_of_singleton.
  intros [_ Hne]. apply Hne. reflexivity.
Qed.

Lemma removeLineClass_line_marker (l : CodeMirror.Line) :
  CodeMirror.gutterMarkers (CodeMirror.removeLineClass_line "wrap" LINE_HIGHLIGHT_CLASS l)
  = CodeMirror.gutterMarkers l.
Proof. reflexivity. Qed.

Lemma removeLineClass_line_idem (l : CodeMirror.Line) :
  CodeMirror.removeLineClass_line "wrap" LINE_HIGHLIGHT_CLASS
    (CodeMirror.removeLineClass_line "wrap" LINE_HIGHLIGHT_CLASS l)
  = CodeMirror.removeLineClass_line "wrap" LINE_HIGHLIGHT_CLASS l.
Proof.
  unfold CodeMirror.removeLineClass_line.
  repeat case_decide; try discriminate. cbn. f_equal.
  apply set_eq. intros c. rewrite !elem_of_difference. tauto.
Qed.

Lemma addLineClass_line_highlighted (l : CodeMirror.Line) :
  highlighted (CodeMirror.addLineClass_line "wrap" LINE_HIGHLIGHT_CLASS l).
Proof.
  unfold highlighted, CodeMirror.addLineClass_line.
  repeat case_decide; try discriminate. cbn.
  apply elem_of_union_r, elem_of_singleton. reflexivity.
Qed.

Lemma clipLine_in_range (cm : CodeMirror.Editor) (n : Z) :
  0 ≤ n < CodeMirror.lineCount cm → CodeMirror.clipLine cm n = n.
Proof. unfold CodeMirror.clipLine. lia. Qed.

Lemma clipLine_is_line (cm : CodeMirror.Editor) (n : Z) :
  CodeMirror.lines cm ≠ [] →
  0 ≤ CodeMirror.clipLine cm n < CodeMirror.lineCount cm.
Proof.
  unfold CodeMirror.clipLine, CodeMirror.lineCount.
  destruct (CodeMirror.lines cm); [congruence|]. cbn [length]. lia.
Qed.

(** ** The breakpoints panel *)

(** C9: activating the panel's button issues one [clearBreakpoints] request
    to the service and nothing else: the handler returns normally whatever
    the state in which the service settles the promise, no
    [updateBreakpoints] request is issued, and the panel's widgets and
    classes and the rest of the service are left as they were. *)
Theorem closeAll_button_clears_breakpoints (p : Breakpoints.Breakpoints) :
  ∃ p',
    Breakpoints.onClick p = Normal p' ∧
    Debugger.clearBreakpoints_count (Breakpoints.service p') =
      S (Debugger.clearBreakpoints_count (Breakpoints.service p)) ∧
    Debugger.updateBreakpoints_log (Breakpoints.service p') =
      Debugger.updateBreakpoints_log (Breakpoints.service p) ∧
    Debugger.session_client_path (Breakpoints.service p') =
      Debugger.session_client_path (Breakpoints.service p) ∧
    Debugger.session_client_name (Breakpoints.service p') =
      Debugger.session_client_name (Breakpoints.service p) ∧
    Debugger.model (Breakpoints.service p') = Debugger.model (Breakpoints.service p) ∧
    Debugger.promise (Breakpoints.service p') = Debugger.promise (Breakpoints.service p) ∧
    Breakpoints.widgets p' = Breakpoints.widgets p ∧
    Breakpoints.classes p' = Breakpoints.classes p.
Proof.
  eexists. split; [reflexivity|]. cbn. repeat split.
Qed.

(** ** Highlighting the current line *)

Lemma clearHighlight_live (e : CodeEditor.IEditor) :
  CodeEditor.isDisposed e = false →
  clearHighlight (Some e) =
    Some (CodeEditor.set_editor
            (CodeMirror.eachLine (CodeEditor.editor e)
               (CodeMirror.removeLineClass_line "wrap" LINE_HIGHLIGHT_CLASS)) e).
Proof. intros Hd. unfold clearHighlight. rewrite Hd. reflexivity. Qed.

Lemma clearHighlight_gone (editor : option CodeEditor.IEditor) :
  editor_gone editor = true → clearHighlight editor = editor.
Proof.
  destruct editor as [e|]; [|reflexivity].
  cbn. intros ->. reflexivity.
Qed.

Lemma clearHighlight_idem (editor : option CodeEditor.IEditor) :
  clearHighlight (clearHighlight editor) = clearHighlight editor.
Proof.
  destruct editor as [e|]; [|reflexivity].
  destruct (CodeEditor.isDisposed e) eqn:Hd.
  - rewrite (clearHighlight_gone (Some e)) by exact Hd.
    apply clearHighlight_gone. exact Hd.
  - rewrite (clearHighlight_live e Hd).
    rewrite clearHighlight_live by exact Hd.
    unfold CodeEditor.set_editor, CodeMirror.eachLine, CodeMirror.set_lines. cbn.
    do 3 f_equal. rewrite map_map. apply map_ext. intros l.
    apply removeLineClass_line_idem.
Qed.

(** C5, as amended: on a non-disposed editor and for a line [L] of its
    document (1-indexed), [showCurrentLine] clears the highlight of every
    line and then highlights the 0-indexed line [L - 1], so that exactly
    that line is highlighted afterwards; calling [clearHighlight] first
    changes nothing. The document keeps its lines otherwise. *)
Theorem showCurrentLine_highlights_one_line (e : CodeEditor.IEditor) (L : Z) :
  CodeEditor.isDisposed e = false →
  1 ≤ L ≤ CodeMirror.lineCount (CodeEditor.editor e) →
  ∃ e',
    showCurrentLine (Some e) L = Normal (Some e') ∧
    showCurrentLine (clearHighlight (Some e)) L = Normal (Some e') ∧
    only_highlighted (CodeEditor.editor e') (L - 1) ∧
    highlighted_lines (CodeEditor.editor e') = [L - 1] ∧
    CodeMirror.lineCount (CodeEditor.editor e') = CodeMirror.lineCount (CodeEditor.editor e).
Proof.
  intros Hd HL.
  assert (Hrun : ∃ e', showCurrentLine (Some e) L = Normal (Some e') ∧
            CodeMirror.lines (CodeEditor.editor e') =
              alter (CodeMirror.addLineClass_line "wrap" LINE_HIGHLIGHT_CLASS)
                (Z.to_nat (L - 1))
                (map (CodeMirror.removeLineClass_line "wrap" LINE_HIGHLIGHT_CLASS)
                   (CodeMirror.lines (CodeEditor.editor e)))).
  { unfold showCurrentLine. rewrite (clearHighlight_live e Hd). cbn.
    eexists. split; [reflexivity|]. cbn.
    rewrite clipLine_in_range; [reflexivity|].
    unfold CodeMirror.lineCount in *. cbn. rewrite length_map. lia. }
  destruct Hrun as (e' & Hrun & Hlines).
  assert (Hlen : CodeMirror.lineCount (CodeEditor.editor e') =
                 CodeMirror.lineCount (CodeEditor.editor e)).
  { unfold CodeMirror.lineCount. rewrite Hlines, length_alter, length_map. reflexivity. }
  assert (Honly : only_highlighted (CodeEditor.editor e') (L - 1)).
  { intros i l Hl. rewrite Hlines in Hl.
    destruct (decide (i = Z.to_nat (L - 1))) as [->|Hne].
    - rewrite list_lookup_alter_eq in Hl.
      destruct (map _ _ !! _) as [l0|]; cbn in Hl; [|discriminate].
      injection Hl as <-. split; [lia|]. intros _. apply addLineClass_line_highlighted.
    - rewrite list_lookup_alter_ne in Hl by congruence.
      rewrite list_lookup_fmap in Hl.
      destruct (CodeMirror.lines (CodeEditor.editor e) !! i) as [l0|]; cbn in Hl;
        [|discriminate].
      injection Hl as <-. split.
      + intros Hh. exfalso. exact (removeLineClass_line_highlighted l0 Hh).
      + intros Hi. exfalso. apply Hne. lia. }
  exists e'. split; [exact Hrun|]. split; [|split; [exact Honly|split; [|exact Hlen]]].
  - rewrite clearHighlight_live by exact Hd.
    rewrite <- (clearHighlight_live e Hd).
    unfold showCurrentLine. rewrite clearHighlight_idem. exact Hrun.
  - unfold highlighted_lines. rewrite Hlen.
    assert (Hfilter : ∀ (a : Z) (n : nat), 0 ≤ a →
              a + Z.of_nat n ≤ CodeMirror.lineCount (CodeEditor.editor e) →
              filter (line_highlighted (CodeEditor.editor e')) (seqZ a (Z.of_nat n)) =
                if decide (a ≤ L - 1 < a + Z.of_nat n) then [L - 1] else []).
    { intros a n. revert a. induction n as [|n IH]; intros a Ha Hb.
      - cbn. destruct (decide _); [lia|reflexivity].
      - rewrite Nat2Z.inj_succ, seqZ_cons by lia.
        replace (Z.pred (Z.succ (Z.of_nat n))) with (Z.of_nat n) by lia.
        assert (Hla : ∃ l, CodeMirror.lines (CodeEditor.editor e') !! Z.to_nat a = Some l).
        { apply lookup_lt_is_Some. unfold CodeMirror.lineCount in *. lia. }
        destruct Hla as [l Hl]. pose proof (Honly _ _ Hl) as Hiff.
        rewrite Z2Nat.id in Hiff by lia.
        assert (Hline : line_highlighted (CodeEditor.editor e') a ↔ a = L - 1).
        { unfold line_highlighted. rewrite Hl. exact Hiff. }
        destruct (decide (a = L - 1)) as [Heq|Hne].
        + rewrite filter_cons_True by (apply Hline; exact Heq).
          rewrite (IH (Z.succ a)) by lia.
          destruct (decide (Z.succ a ≤ L - 1 < _)); [lia|].
          destruct (decide (a ≤ L - 1 < _)); [congruence|lia].
        + rewrite filter_cons_False by (intros Hc; apply Hne, Hline; exact Hc).
          rewrite (IH (Z.succ a)) by lia.
          destruct (decide (Z.succ a ≤ L - 1 < _));
            destruct (decide (a ≤ L - 1 < _)); try reflexivity; lia. }
    unfold CodeMirror.lineCount at 1.
    rewrite (Hfilter 0 (length (CodeMirror.lines (CodeEditor.editor e)))).
    + destruct (decide _) as [_|Hn]; [reflexivity|].
      unfold CodeMirror.lineCount in HL. lia.
    + lia.
    + unfold CodeMirror.lineCount. lia.
Qed.

Lemma showCurrentLine_highlights_one_line_witness :
  ∃ e',
    showCurrentLine (Some Sample.editor_lit_live) 3 = Normal (Some e') ∧
    highlighted_lines (CodeEditor.editor e') = [2].
Proof.
  destruct (showCurrentLine_highlights_one_line Sample.editor_lit_live 3)
    as (e' & Hrun & _ & _ & Hl & _).
  - reflexivity.
  - vm_compute. split; discriminate.
  - exists e'. split; [exact Hrun | exact Hl].
Defined.

(** C5 fails on a disposed editor: [clearHighlight] leaves it untouched, so
    the earlier highlight of line 2 stays when line 1 is highlighted. *)
Lemma showCurrentLine_disposed_two_lines :
  highlighted_lines (CodeEditor.editor Sample.editor_lit_disposed) = [1] ∧
  ∃ e',
    showCurrentLine (Some Sample.editor_lit_disposed) 1 = Normal (Some e') ∧
    highlighted_lines (CodeEditor.editor e') = [0; 1] ∧
    ¬ only_highlighted (CodeEditor.editor e') (1 - 1).
Proof.
  split; [vm_compute; reflexivity|].
  eexists. split; [reflexivity|]. split; [vm_compute; reflexivity|].
  intros Honly.
  specialize (Honly 1%nat (Sample.lit "b = 2") eq_refl).
  destruct Honly as [Honly _].
  assert (Hh : highlighted (Sample.lit "b = 2")).
  { unfold highlighted, Sample.lit. cbn. apply elem_of_singleton. reflexivity. }
  specialize (Honly Hh). lia.
Qed.

(** ** Guards on the editor *)

(** C2, as amended: [clearHighlight], the slots of the model notifications,
    [_setupEditor] and [_clearEditor] do nothing when the editor is [null]
    or disposed; the debounce-triggered submission does nothing when the
    editor is disposed; [clearGutter] does nothing when the editor is
    [null]. *)
Theorem editor_gone_short_circuits (h : EditorHandler) :
  editor_gone (_editor h) = true →
  clearHighlight (_editor h) = _editor h ∧
  on_currentFrameChanged h = h ∧
  on_changed h = Normal h ∧
  on_restored h = Normal h ∧
  _setupEditor h = Normal h ∧
  _clearEditor h = h ∧
  (is_Some (_editor h) → _sendEditorBreakpoints h = Normal h) ∧
  clearGutter None = None.
Proof.
  intros Hgone.
  pose proof (clearHighlight_gone (_editor h) Hgone) as Hclear.
  split; [exact Hclear|].
  split; [unfold on_currentFrameChanged; rewrite Hclear; destruct h; reflexivity|].
  unfold on_changed, on_restored, _setupEditor, _clearEditor. rewrite Hgone.
  repeat (split; [reflexivity|]).
  split; [|reflexivity].
  intros [e He]. unfold _sendEditorBreakpoints. rewrite He in Hgone |- *.
  cbn in Hgone |- *. rewrite Hgone. reflexivity.
Qed.

Lemma editor_gone_short_circuits_witness :
  on_changed (Sample.handler_of (Some Sample.editor_disposed) Sample.service) =
    Normal (Sample.handler_of (Some Sample.editor_disposed) Sample.service) ∧
  _sendEditorBreakpoints (Sample.handler_of (Some Sample.editor_disposed) Sample.service) =
    Normal (Sample.handler_of (Some Sample.editor_disposed) Sample.service).
Proof.
  destruct (editor_gone_short_circuits
              (Sample.handler_of (Some Sample.editor_disposed) Sample.service) eq_refl)
    as (_ & _ & Hc & _ & _ & _ & Hs & _).
  split; [exact Hc|]. apply Hs. eexists. reflexivity.
Defined.

(** C2 fails: [clearGutter] only checks that the editor is not [null] and
    removes the markers of a disposed editor; [showCurrentLine] highlights a
    line of a disposed editor and throws on [null]; the debounce-triggered
    submission throws on a [null] editor. *)
Lemma clearGutter_acts_on_disposed_editor :
  CodeEditor.isDisposed Sample.editor_disposed = true ∧
  marked_lines (CodeEditor.editor Sample.editor_disposed) = [1] ∧
  highlighted_lines (CodeEditor.editor Sample.editor_disposed) = [] ∧
  clearGutter (Some Sample.editor_disposed) ≠ Some Sample.editor_disposed ∧
  (∃ e', clearGutter (Some Sample.editor_disposed) = Some e' ∧
         marked_lines (CodeEditor.editor e') = []) ∧
  (∃ e', showCurrentLine (Some Sample.editor_disposed) 1 = Normal (Some e') ∧
         highlighted_lines (CodeEditor.editor e') = [0]) ∧
  showCurrentLine None 1 = Throw TypeError ∧
  _sendEditorBreakpoints (Sample.handler_of None Sample.service) = Throw TypeError.
Proof.
  split; [reflexivity|].
  split; [vm_compute; reflexivity|].
  split; [vm_compute; reflexivity|].
  split.
  { intros Heq.
    apply (f_equal (λ o, match o with
                         | Some e => marked_lines (CodeEditor.editor e)
                         | None => []
                         end)) in Heq.
    vm_compute in Heq. discriminate. }
  split; [eexists; split; [reflexivity | vm_compute; reflexivity]|].
  split; [eexists; split; [reflexivity | vm_compute; reflexivity]|].
  split; reflexivity.
Qed.

(** ** Disposal *)

Lemma clearEditor_live (h : EditorHandler) (e : CodeEditor.IEditor) :
  _editor h = Some e →
  CodeEditor.isDisposed e = false →
  ∃ e1,
    _editor (_clearEditor h) = Some e1 ∧
    CodeMirror.lines (CodeEditor.editor e1) =
      map clearGutter_line
        (map (CodeMirror.removeLineClass_line "wrap" LINE_HIGHLIGHT_CLASS)
           (CodeMirror.lines (CodeEditor.editor e))) ∧
    CodeMirror.opt_lineNumbers (CodeEditor.editor e1) = false ∧
    CodeMirror.opt_gutters (CodeEditor.editor e1) = [] ∧
    CodeMirror.gutterClick (CodeEditor.editor e1) =
      CodeMirror.remove_first (self h) (CodeMirror.gutterClick (CodeEditor.editor e)).
Proof.
  intros He Hd. unfold _clearEditor. rewrite He. cbn. rewrite Hd. cbn.
  eexists. split; [reflexivity|]. cbn. repeat split.
Qed.

Lemma remove_first_absent (x : nat) (l : list nat) :
  x ∉ l → CodeMirror.remove_first x l = l.
Proof.
  induction l as [|y l IH]; intros Hx; [reflexivity|]. cbn.
  destruct (decide (x = y)) as [->|Hne].
  - exfalso. apply Hx. left.
  - rewrite IH; [reflexivity|]. intros Hin. apply Hx. right. exact Hin.
Qed.

Lemma remove_first_split (x : nat) (l1 l2 : list nat) :
  x ∉ l1 → CodeMirror.remove_first x (l1 ++ x :: l2) = l1 ++ l2.
Proof.
  induction l1 as [|y l1 IH]; intros Hx; cbn.
  - destruct (decide (x = x)); [reflexivity|contradiction].
  - destruct (decide (x = y)) as [->|Hne].
    + exfalso. apply Hx. left.
    + rewrite IH; [reflexivity|]. intros Hin. apply Hx. right. exact Hin.
Qed.

(** C4, as amended: the first [dispose] of a handler stops the debounce
    monitor, strips the highlight, the breakpoint markers, the gutters, the
    line numbers and the first registration of its click listener from a
    live editor, leaves no connection in which the handler is the receiver,
    and marks the handler disposed; [dispose] on a disposed handler returns
    at once and leaves the handler as it is. *)
Theorem dispose_idempotent (h : EditorHandler) (monitor : ActivityMonitor) :
  isDisposed h = false →
  _editorMonitor h = Some monitor →
  ∃ h1,
    dispose h = Normal h1 ∧
    isDisposed h1 = true ∧
    _editorMonitor h1 = Some (mkActivityMonitor (timeout monitor) true) ∧
    Forall (λ c, thisArg c = false) (connections h1) ∧
    (∀ c, c ∈ connections h1 → c ∈ connections h) ∧
    (∀ e, _editor h = Some e → CodeEditor.isDisposed e = false →
       ∃ e1,
         _editor h1 = Some e1 ∧
         (∀ i l, CodeMirror.lines (CodeEditor.editor e1) !! i = Some l →
                 ¬ highlighted l ∧ breakpoint_marker l = None) ∧
         CodeMirror.opt_lineNumbers (CodeEditor.editor e1) = false ∧
         CodeMirror.opt_gutters (CodeEditor.editor e1) = [] ∧
         (self h ∉ CodeMirror.gutterClick (CodeEditor.editor e) →
          CodeMirror.gutterClick (CodeEditor.editor e1) =
            CodeMirror.gutterClick (CodeEditor.editor e)) ∧
         (∀ l1 l2,
            CodeMirror.gutterClick (CodeEditor.editor e) = l1 ++ self h :: l2 →
            self h ∉ l1 →
            CodeMirror.gutterClick (CodeEditor.editor e1) = l1 ++ l2)) ∧
    dispose h1 = Normal h1 ∧
    (∀ h2, isDisposed h2 = true → dispose h2 = Normal h2).
Proof.
  intros Hd Hmon. unfold dispose at 1. rewrite Hd, Hmon. cbn.
  eexists. split; [reflexivity|].
  split; [reflexivity|].
  assert (Hconn : connections
                    (_clearEditor
                       (set__editorMonitor (Some (ActivityMonitor_dispose monitor)) h))
                  = connections h).
  { unfold _clearEditor. cbn. destruct (editor_gone (_editor h)); [reflexivity|].
    destruct (clearGutter _); reflexivity. }
  split.
  { cbn. unfold _clearEditor. cbn. destruct (editor_gone (_editor h)); [reflexivity|].
    destruct (clearGutter _); reflexivity. }
  split.
  { cbn. rewrite Hconn. apply Forall_forall. intros c Hc.
    apply list_elem_of_filter in Hc as [Hc _]. exact Hc. }
  split.
  { cbn. rewrite Hconn. intros c Hc.
    apply list_elem_of_filter in Hc as [_ Hc]. exact Hc. }
  split.
  { intros e He Hde. cbn.
    destruct (clearEditor_live
                (set__editorMonitor (Some (ActivityMonitor_dispose monitor)) h) e He Hde)
      as (e1 & He1 & Hlines & Hnum & Hgut & Hclick).
    cbn [self set__editorMonitor] in Hclick.
    exists e1. split; [exact He1|]. split; [|split; [exact Hnum|split; [exact Hgut|split]]].
    - intros i l Hl. rewrite Hlines, !list_lookup_fmap in Hl.
      destruct (CodeMirror.lines (CodeEditor.editor e) !! i) as [l0|]; cbn in Hl;
        [|discriminate].
      injection Hl as <-. split.
      + unfold highlighted. rewrite clearGutter_line_wrapClass.
        apply removeLineClass_line_highlighted.
      + apply clearGutter_line_marker.
    - intros Habs. rewrite Hclick. apply remove_first_absent. exact Habs.
    - intros l1 l2 Hsplit Habs. rewrite Hclick, Hsplit.
      apply remove_first_split. exact Habs. }
  split; [reflexivity|].
  intros h2 Hd2. unfold dispose. rewrite Hd2. reflexivity.
Qed.

Lemma dispose_idempotent_witness :
  ∃ h1 e1,
    dispose Sample.handler = Normal h1 ∧
    isDisposed h1 = true ∧
    dispose h1 = Normal h1 ∧
    _editor h1 = Some e1 ∧
    CodeMirror.gutterClick (CodeEditor.editor e1) = [].
Proof.
  destruct (dispose_idempotent Sample.handler
              {| timeout := EDITOR_CHANGED_TIMEOUT; monitor_isDisposed := false |}
              eq_refl eq_refl)
    as (h1 & Hrun & Hdis & _ & _ & _ & Hed & Hagain & _).
  destruct (Hed Sample.editor_live eq_refl eq_refl)
    as (e1 & He1 & _ & _ & _ & _ & Hclick).
  exists h1, e1. split; [exact Hrun|]. split; [exact Hdis|]. split; [exact Hagain|].
  split; [exact He1|].
  apply (Hclick [] []); [reflexivity | apply not_elem_of_nil].
Defined.

(** C4 fails on two counts. The slots connected without receiver stay
    connected after [dispose]: the disposed sample handler still holds the
    [changed] connection, and the next [changed] notification renders the
    markers of lines 1 and 3 again into the editor [dispose] had just
    stripped. And nothing is stripped from a disposed editor: its marker on
    line 2 survives [dispose]. *)
Lemma dispose_keeps_receiverless_slots :
  (∃ h1 e1,
     dispose Sample.handler = Normal h1 ∧
     mkConnection changed false ∈ connections h1 ∧
     _editor h1 = Some e1 ∧
     marked_lines (CodeEditor.editor e1) = [] ∧
     ∃ h2 e2,
       handle h1 BreakpointsChanged = Normal h2 ∧
       _editor h2 = Some e2 ∧
       marked_lines (CodeEditor.editor e2) = [0; 2]) ∧
  (∃ h3,
     dispose (Sample.handler_of (Some Sample.editor_disposed) Sample.service)
       = Normal h3 ∧
     _editor h3 = Some Sample.editor_disposed ∧
     marked_lines (CodeEditor.editor Sample.editor_disposed) = [1]).
Proof.
  split.
  - eexists. eexists. split; [vm_compute; reflexivity|].
    split; [right; left|].
    split; [reflexivity|]. split; [vm_compute; reflexivity|].
    eexists. eexists. split; [vm_compute; reflexivity|].
    split; [reflexivity|]. vm_compute. reflexivity.
  - eexists. split; [vm_compute; reflexivity|].
    split; [reflexivity|]. vm_compute. reflexivity.
Qed.

(** ** Rendering the markers *)

Lemma setGutterMarker_lineCount (cm : CodeMirror.Editor) (n : Z) (g : string)
    (v : option CodeMirror.MarkerNode) :
  CodeMirror.lineCount (CodeMirror.setGutterMarker cm n g v) = CodeMirror.lineCount cm.
Proof.
  unfold CodeMirror.lineCount, CodeMirror.setGutterMarker, CodeMirror.changeLine. cbn.
  rewrite length_alter. reflexivity.
Qed.

Lemma clipLine_lineCount (cm cm' : CodeMirror.Editor) (n : Z) :
  CodeMirror.lineCount cm' = CodeMirror.lineCount cm →
  CodeMirror.clipLine cm' n = CodeMirror.clipLine cm n.
Proof. unfold CodeMirror.clipLine. intros ->. reflexivity. Qed.

(** The loop of [_addBreakpointsToEditor]: a line the loop reaches carries
    the marker node afterwards, any other line is left as it was. *)
Lemma render_loop (bps : list IDebugger.IBreakpoint) :
  ∀ e0 : CodeEditor.IEditor,
  ∃ e1,
    forEach
      (λ (editor : option CodeEditor.IEditor) (breakpoint : IDebugger.IBreakpoint),
         e ← deref editor;
         Normal (Some (CodeEditor.set_editor
                         (CodeMirror.setGutterMarker (CodeEditor.editor e)
                            (IDebugger.line breakpoint - 1) "breakpoints"
                            (Some Private.createMarkerNode))
                         e)))
      bps (Some e0) = Normal (Some e1) ∧
    CodeEditor.isDisposed e1 = CodeEditor.isDisposed e0 ∧
    CodeEditor.model_value_text e1 = CodeEditor.model_value_text e0 ∧
    CodeMirror.lineCount (CodeEditor.editor e1) = CodeMirror.lineCount (CodeEditor.editor e0) ∧
    ∀ i l1, CodeMirror.lines (CodeEditor.editor e1) !! i = Some l1 →
      ∃ l0, CodeMirror.lines (CodeEditor.editor e0) !! i = Some l0 ∧
        CodeMirror.wrapClass l1 = CodeMirror.wrapClass l0 ∧
        CodeMirror.text l1 = CodeMirror.text l0 ∧
        (Exists (λ bp, Z.to_nat (CodeMirror.clipLine (CodeEditor.editor e0)
                                   (IDebugger.line bp - 1)) = i) bps →
         breakpoint_marker l1 = Some Private.createMarkerNode) ∧
        (¬ Exists (λ bp, Z.to_nat (CodeMirror.clipLine (CodeEditor.editor e0)
                                     (IDebugger.line bp - 1)) = i) bps →
         l1 = l0).
Proof.
  induction bps as [|bp bps IH]; intros e0.
  - exists e0. cbn. repeat (split; [reflexivity|]).
    intros i l1 Hl. exists l1. repeat (split; [done|]).
    split; [|done]. intros Hex. inversion Hex.
  - set (e0' := CodeEditor.set_editor
                  (CodeMirror.setGutterMarker (CodeEditor.editor e0)
                     (IDebugger.line bp - 1) "breakpoints"
                     (Some Private.createMarkerNode)) e0).
    destruct (IH e0') as (e1 & Hrun & Hdis & Htext & Hcount & Hlines).
    assert (Hcount' : CodeMirror.lineCount (CodeEditor.editor e0') =
                      CodeMirror.lineCount (CodeEditor.editor e0))
      by apply setGutterMarker_lineCount.
    exists e1. split; [exact Hrun|].
    split; [rewrite Hdis; reflexivity|].
    split; [rewrite Htext; reflexivity|].
    split; [rewrite Hcount; exact Hcount'|].
    intros i l1 Hl1.
    destruct (Hlines i l1 Hl1) as (l0' & Hl0' & Hwrap & Htxt & Hyes & Hno).
    set (k := Z.to_nat (CodeMirror.clipLine (CodeEditor.editor e0)
                          (IDebugger.line bp - 1))) in *.
    assert (Hsame : ∀ b,
              Z.to_nat (CodeMirror.clipLine (CodeEditor.editor e0') (IDebugger.line b - 1))
              = Z.to_nat (CodeMirror.clipLine (CodeEditor.editor e0) (IDebugger.line b - 1)))
      by (intros b; rewrite (clipLine_lineCount _ _ _ Hcount'); reflexivity).
    assert (Hex_iff :
              Exists (λ b, Z.to_nat (CodeMirror.clipLine (CodeEditor.editor e0')
                                       (IDebugger.line b - 1)) = i) bps ↔
              Exists (λ b, Z.to_nat (CodeMirror.clipLine (CodeEditor.editor e0)
                                       (IDebugger.line b - 1)) = i) bps).
    { split; intros Hex; (eapply Exists_impl; [exact Hex|]);
        intros b Hb; cbn beta in *; [rewrite <- Hsame | rewrite Hsame]; exact Hb. }
    assert (Hlk : CodeMirror.lines (CodeEditor.editor e0') =
                  alter (CodeMirror.setGutterMarker_line "breakpoints"
                           (Some Private.createMarkerNode)) k
                    (CodeMirror.lines (CodeEditor.editor e0))) by reflexivity.
    rewrite Hlk in Hl0'.
    destruct (decide (k = i)) as [Hki|Hki].
    + subst i. rewrite list_lookup_alter_eq in Hl0'.
      destruct (CodeMirror.lines (CodeEditor.editor e0) !! k) as [l0|]; cbn in Hl0';
        [|discriminate].
      injection Hl0' as <-. exists l0. split; [reflexivity|].
      split; [rewrite Hwrap; reflexivity|].
      split; [rewrite Htxt; reflexivity|].
      split.
      * intros _.
        destruct (decide (Exists (λ b, Z.to_nat (CodeMirror.clipLine (CodeEditor.editor e0')
                                          (IDebugger.line b - 1)) = k) bps)) as [Hex|Hnex].
        -- apply Hyes. exact Hex.
        -- rewrite (Hno Hnex). apply setGutterMarker_line_marker.
      * intros Hnex. exfalso. apply Hnex. apply Exists_cons_hd. reflexivity.
    + rewrite list_lookup_alter_ne in Hl0' by exact Hki.
      exists l0'. split; [exact Hl0'|].
      split; [exact Hwrap|]. split; [exact Htxt|].
      split.
      * intros Hex. apply Exists_cons in Hex as [Hhd|Htl]; [contradiction|].
        apply Hyes, Hex_iff. exact Htl.
      * intros Hnex. apply Hno. intros Hex. apply Hnex.
        apply Exists_cons_tl, Hex_iff. exact Hex.
Qed.

(** Rendering on a handler bound to the active session: the markers are
    cleared and every line a breakpoint resolves to (its 0-indexed line
    number, clipped to the document) gets the marker node. *)
Lemma addBreakpointsToEditor_renders (h : EditorHandler) (e : CodeEditor.IEditor)
    (m : Debugger.Model) :
  _editor h = Some e →
  _debuggerModel h = Some m →
  _id h = Debugger.session_client_path (_debuggerService h) →
  ∃ e',
    _addBreakpointsToEditor h = Normal (set__editor (Some e') h) ∧
    CodeMirror.lineCount (CodeEditor.editor e') = CodeMirror.lineCount (CodeEditor.editor e) ∧
    ∀ i l', CodeMirror.lines (CodeEditor.editor e') !! i = Some l' →
      (Exists (λ bp, Z.to_nat (CodeMirror.clipLine (CodeEditor.editor e)
                                 (IDebugger.line bp - 1)) = i) (current_breakpoints h) →
       breakpoint_marker l' = Some Private.createMarkerNode) ∧
      (¬ Exists (λ bp, Z.to_nat (CodeMirror.clipLine (CodeEditor.editor e)
                                   (IDebugger.line bp - 1)) = i) (current_breakpoints h) →
       breakpoint_marker l' = None).
Proof.
  intros He Hm Hid. unfold current_breakpoints, _addBreakpointsToEditor.
  rewrite (getBreakpoints_Normal h e m He Hm). cbn.
  destruct (decide (_id h ≠ _)) as [Hn|_]; [contradiction|].
  rewrite He, clearGutter_unfold.
  set (ec := CodeEditor.set_editor
               (CodeMirror.eachLine (CodeEditor.editor e) clearGutter_line) e).
  set (bps := Debugger.getBreakpoints _ _).
  destruct (render_loop bps ec) as (e1 & Hrun & _ & _ & Hcount & Hlines).
  assert (Hcount_c : CodeMirror.lineCount (CodeEditor.editor ec) =
                     CodeMirror.lineCount (CodeEditor.editor e)).
  { unfold CodeMirror.lineCount. cbn. rewrite length_map. reflexivity. }
  exists e1. rewrite Hrun. cbn. split; [reflexivity|].
  split; [rewrite Hcount; exact Hcount_c|].
  intros i l' Hl'.
  destruct (Hlines i l' Hl') as (l0 & Hl0 & _ & _ & Hyes & Hno).
  assert (Hex_iff :
            Exists (λ b, Z.to_nat (CodeMirror.clipLine (CodeEditor.editor ec)
                                     (IDebugger.line b - 1)) = i) bps ↔
            Exists (λ b, Z.to_nat (CodeMirror.clipLine (CodeEditor.editor e)
                                     (IDebugger.line b - 1)) = i) bps).
  { split; intros Hex; (eapply Exists_impl; [exact Hex|]);
      intros b Hb; cbn beta in *;
      [rewrite <- (clipLine_lineCount _ _ _ Hcount_c)
      |rewrite (clipLine_lineCount _ _ _ Hcount_c)]; exact Hb. }
  split.
  - intros Hex. apply Hyes, Hex_iff. exact Hex.
  - intros Hnex. rewrite Hno by (intros Hex; apply Hnex, Hex_iff; exact Hex).
    cbn in Hl0. rewrite list_lookup_fmap in Hl0.
    destruct (CodeMirror.lines (CodeEditor.editor e) !! i) as [l|]; cbn in Hl0;
      [|discriminate].
    injection Hl0 as <-. apply clearGutter_line_marker.
Qed.

(** C3, as amended: when a handler with a live editor receives the
    breakpoints model's [changed] or [restored] notification and is bound to
    the active session, the markers of the ['breakpoints'] gutter are cleared
    and the marker node is set for every breakpoint read from the model, on
    the breakpoint's line minus one clipped to the document: the breakpoint's
    own line when it is a line of the document, else the first or the last
    line. A line carries a marker afterwards exactly when a breakpoint
    resolves to it. When the bound session differs from the active one,
    nothing changes. *)
Theorem model_notification_renders_clipped_markers (h : EditorHandler)
    (e : CodeEditor.IEditor) (m : Debugger.Model) (ev : Event) :
  ev = BreakpointsChanged ∨ ev = BreakpointsRestored →
  _editor h = Some e →
  CodeEditor.isDisposed e = false →
  _debuggerModel h = Some m →
  let bps :=
    Debugger.getBreakpoints (Debugger.breakpoints m)
      (default (Debugger.getCodeId (_debuggerService h) (CodeEditor.model_value_text e))
               (_path h)) in
  (_id h = Debugger.session_client_path (_debuggerService h) →
   ∃ h' e',
     handle h ev = Normal h' ∧
     _editor h' = Some e' ∧
     _debuggerService h' = _debuggerService h ∧
     CodeMirror.lineCount (CodeEditor.editor e') = CodeMirror.lineCount (CodeEditor.editor e) ∧
     ∀ i l', CodeMirror.lines (CodeEditor.editor e') !! i = Some l' →
       ((∃ bp, bp ∈ bps ∧
               CodeMirror.clipLine (CodeEditor.editor e) (IDebugger.line bp - 1)
               = Z.of_nat i) →
        breakpoint_marker l' = Some Private.createMarkerNode) ∧
       ((¬ ∃ bp, bp ∈ bps ∧
                 CodeMirror.clipLine (CodeEditor.editor e) (IDebugger.line bp - 1)
                 = Z.of_nat i) →
        breakpoint_marker l' = None)) ∧
  (∀ bp, 1 ≤ IDebugger.line bp ≤ CodeMirror.lineCount (CodeEditor.editor e) →
         CodeMirror.clipLine (CodeEditor.editor e) (IDebugger.line bp - 1)
         = IDebugger.line bp - 1) ∧
  (∀ bp, IDebugger.line bp < 1 → CodeMirror.lines (CodeEditor.editor e) ≠ [] →
         CodeMirror.clipLine (CodeEditor.editor e) (IDebugger.line bp - 1) = 0) ∧
  (∀ bp, CodeMirror.lineCount (CodeEditor.editor e) < IDebugger.line bp →
         CodeMirror.lines (CodeEditor.editor e) ≠ [] →
         CodeMirror.clipLine (CodeEditor.editor e) (IDebugger.line bp - 1)
         = CodeMirror.lineCount (CodeEditor.editor e) - 1) ∧
  (_id h ≠ Debugger.session_client_path (_debuggerService h) →
   handle h ev = Normal h).
Proof.
  intros Hev He Hd Hm bps.
  assert (Hhandle : handle h ev = _addBreakpointsToEditor h).
  { destruct Hev as [-> | ->]; cbn; unfold on_changed, on_restored;
      rewrite He; cbn; rewrite Hd; reflexivity. }
  rewrite Hhandle.
  assert (Hpos : ∀ n, 0 ≤ CodeMirror.clipLine (CodeEditor.editor e) n)
    by (intros n; unfold CodeMirror.clipLine; lia).
  assert (Hnonempty : CodeMirror.lines (CodeEditor.editor e) ≠ [] →
                      1 ≤ CodeMirror.lineCount (CodeEditor.editor e)).
  { unfold CodeMirror.lineCount.
    destruct (CodeMirror.lines (CodeEditor.editor e)); [congruence|]. cbn [length]. lia. }
  split; [|split; [|split; [|split]]].
  - intros Hid.
    destruct (addBreakpointsToEditor_renders h e m He Hm Hid)
      as (e' & Hrun & Hcount & Hlines).
    exists (set__editor (Some e') h), e'.
    split; [exact Hrun|]. split; [reflexivity|]. split; [reflexivity|].
    split; [exact Hcount|].
    assert (Hbps : current_breakpoints h = bps).
    { unfold current_breakpoints. rewrite (getBreakpoints_Normal h e m He Hm).
      reflexivity. }
    rewrite Hbps in Hlines.
    intros i l' Hl'. destruct (Hlines i l' Hl') as [Hyes Hno].
    assert (Hiff : Exists (λ bp, Z.to_nat (CodeMirror.clipLine (CodeEditor.editor e)
                                             (IDebugger.line bp - 1)) = i) bps ↔
                   ∃ bp, bp ∈ bps ∧
                         CodeMirror.clipLine (CodeEditor.editor e) (IDebugger.line bp - 1)
                         = Z.of_nat i).
    { rewrite Exists_exists. split; intros (bp & Hin & Hline); exists bp;
        (split; [exact Hin|]);
        pose proof (Hpos (IDebugger.line bp - 1)); lia. }
    split.
    + intros Hex. apply Hyes, Hiff. exact Hex.
    + intros Hnex. apply Hno. intros Hex. apply Hnex, Hiff. exact Hex.
  - intros bp Hr. apply clipLine_in_range. lia.
  - intros bp Hlt Hne. specialize (Hnonempty Hne). unfold CodeMirror.clipLine. lia.
  - intros bp Hgt Hne. specialize (Hnonempty Hne). unfold CodeMirror.clipLine. lia.
  - intros Hid. unfold _addBreakpointsToEditor.
    rewrite (getBreakpoints_Normal h e m He Hm). cbn.
    destruct (decide (_id h ≠ _)) as [_|Hn]; [reflexivity|contradiction].
Qed.

Lemma model_notification_renders_clipped_markers_witness :
  ∃ h' e',
    handle Sample.handler BreakpointsChanged = Normal h' ∧
    _editor h' = Some e' ∧
    marked_lines (CodeEditor.editor e') = [0; 2].
Proof.
  destruct (model_notification_renders_clipped_markers Sample.handler Sample.editor_live
              (Debugger.mkModel Sample.bpModel) BreakpointsChanged
              (or_introl eq_refl) eq_refl eq_refl eq_refl) as [Hrender _].
  destruct (Hrender eq_refl) as (h' & e' & Hrun & He' & _).
  exists h', e'. split; [exact Hrun|]. split; [exact He'|].
  vm_compute in Hrun. injection Hrun as <-. injection He' as <-.
  vm_compute. reflexivity.
Defined.

(** C3 fails when a breakpoint's line is not a line of the document: with a
    breakpoint at line 10 and an editor of three lines, the [changed]
    notification leaves a marker on the last line (line 3, 0-indexed 2),
    where the model holds no breakpoint. *)
Lemma model_notification_marks_clipped_line :
  current_breakpoints Cases.handler_far = [Private.createBreakpoint "foo.py" 10] ∧
  _id Cases.handler_far =
    Debugger.session_client_path (_debuggerService Cases.handler_far) ∧
  ∃ h' e',
    handle Cases.handler_far BreakpointsChanged = Normal h' ∧
    _editor h' = Some e' ∧
    CodeMirror.lineCount (CodeEditor.editor e') = 3 ∧
    marked_lines (CodeEditor.editor e') = [2] ∧
    ¬ (∀ i l', CodeMirror.lines (CodeEditor.editor e') !! i = Some l' →
         (is_Some (breakpoint_marker l') ↔
          ∃ bp, bp ∈ current_breakpoints Cases.handler_far ∧
                IDebugger.line bp = Z.of_nat i + 1)).
Proof.
  split; [reflexivity|]. split; [reflexivity|].
  eexists. eexists. split; [vm_compute; reflexivity|].
  split; [reflexivity|]. split; [reflexivity|].
  split; [vm_compute; reflexivity|].
  intros Hclaim.
  specialize (Hclaim 2%nat _ eq_refl). destruct Hclaim as [Hclaim _].
  destruct Hclaim as (bp & Hin & Hline).
  - eexists. vm_compute. reflexivity.
  - change (current_breakpoints Cases.handler_far)
      with [Private.createBreakpoint "foo.py" 10] in Hin.
    apply list_elem_of_singleton in Hin. subst bp. cbn in Hline. lia.
Qed.

(** * Further properties of the handler *)

(** ** The closed form of rendering *)

Lemma setGutterMarker_line_idem (g : string) (v : CodeMirror.MarkerNode)
    (l : CodeMirror.Line) :
  CodeMirror.setGutterMarker_line g (Some v)
    (CodeMirror.setGutterMarker_line g (Some v) l)
  = CodeMirror.setGutterMarker_line g (Some v) l.
Proof.
  unfold CodeMirror.setGutterMarker_line, CodeMirror.set_gutterMarkers. cbn.
  rewrite insert_insert_eq. reflexivity.
Qed.

Lemma clearGutter_line_cases (l : CodeMirror.Line) :
  (CodeMirror.gutterMarkers (clearGutter_line l) = None ∨
   ∃ g, CodeMirror.gutterMarkers (clearGutter_line l) = Some g ∧
        g ≠ ∅ ∧ g !! "breakpoints" = None) ∧
  CodeMirror.text (clearGutter_line l) = CodeMirror.text l ∧
  CodeMirror.textClass (clearGutter_line l) = CodeMirror.textClass l ∧
  CodeMirror.bgClass (clearGutter_line l) = CodeMirror.bgClass l ∧
  CodeMirror.wrapClass (clearGutter_line l) = CodeMirror.wrapClass l.
Proof.
  unfold clearGutter_line, CodeMirror.setGutterMarker_line.
  destruct (CodeMirror.gutterMarkers l) as [g|] eqn:Hg; cbn.
  - destruct (decide (delete "breakpoints" g = ∅)) as [He|Hne]; cbn.
    + repeat split; left; reflexivity.
    + repeat split. right. eexists. split; [reflexivity|].
      split; [exact Hne | apply lookup_delete_eq].
  - rewrite Hg. repeat split; left; reflexivity.
Qed.

Lemma clearGutter_line_fixed (l : CodeMirror.Line) :
  (CodeMirror.gutterMarkers l = None ∨
   ∃ g, CodeMirror.gutterMarkers l = Some g ∧ g ≠ ∅ ∧ g !! "breakpoints" = None) →
  clearGutter_line l = l.
Proof.
  unfold clearGutter_line, CodeMirror.setGutterMarker_line.
  intros [Hn | (g & Hg & Hne & Hbp)].
  - rewrite Hn. reflexivity.
  - rewrite Hg. cbn. rewrite delete_id by exact Hbp.
    destruct (decide (g = ∅)); [contradiction|].
    destruct l; cbn in *; subst; reflexivity.
Qed.

Lemma clearGutter_line_idem (l : CodeMirror.Line) :
  clearGutter_line (clearGutter_line l) = clearGutter_line l.
Proof. apply clearGutter_line_fixed, clearGutter_line_cases. Qed.

Lemma clearGutter_set_clearGutter (v : CodeMirror.MarkerNode) (l : CodeMirror.Line) :
  clearGutter_line
    (CodeMirror.setGutterMarker_line "breakpoints" (Some v) (clearGutter_line l))
  = clearGutter_line l.
Proof.
  pose proof (clearGutter_line_cases l) as [Hcases _].
  generalize dependent (clearGutter_line l). intros l' Hcases.
  unfold clearGutter_line, CodeMirror.setGutterMarker_line. cbn.
  rewrite delete_insert_eq.
  destruct Hcases as [Hn | (g & Hg & Hne & Hbp)].
  - rewrite Hn. cbn. rewrite delete_empty.
    destruct (decide (∅ = ∅)) as [_|Hc]; [|contradiction].
    destruct l'; cbn in *; subst; reflexivity.
  - rewrite Hg. cbn. rewrite delete_id by exact Hbp.
    destruct (decide (g = ∅)); [contradiction|].
    destruct l'; cbn in *; subst; reflexivity.
Qed.

Lemma reached_lineCount (cm cm' : CodeMirror.Editor) (bps : list IDebugger.IBreakpoint)
    (i : nat) :
  CodeMirror.lineCount cm' = CodeMirror.lineCount cm →
  reached cm' bps i ↔ reached cm bps i.
Proof.
  intros Hc. unfold reached.
  split; intros Hex; (eapply Exists_impl; [exact Hex|]); intros bp Hbp; cbn beta in *;
    [rewrite <- (clipLine_lineCount _ _ _ Hc) | rewrite (clipLine_lineCount _ _ _ Hc)];
    exact Hbp.
Qed.

Lemma mark_line_lineCount (cm cm' : CodeMirror.Editor) (bps : list IDebugger.IBreakpoint)
    (i : nat) (l : CodeMirror.Line) :
  CodeMirror.lineCount cm' = CodeMirror.lineCount cm →
  mark_line cm' bps i l = mark_line cm bps i l.
Proof.
  intros Hc. unfold mark_line.
  pose proof (reached_lineCount cm cm' bps i Hc) as Hiff.
  destruct (decide (reached cm' bps i)), (decide (reached cm bps i)); tauto || reflexivity.
Qed.

(** The loop of [_addBreakpointsToEditor] in closed form. *)
Lemma render_loop_closed (bps : list IDebugger.IBreakpoint) :
  ∀ e0 : CodeEditor.IEditor,
    forEach
      (λ (editor : option CodeEditor.IEditor) (breakpoint : IDebugger.IBreakpoint),
         e ← deref editor;
         Normal (Some (CodeEditor.set_editor
                         (CodeMirror.setGutterMarker (CodeEditor.editor e)
                            (IDebugger.line breakpoint - 1) "breakpoints"
                            (Some Private.createMarkerNode))
                         e)))
      bps (Some e0)
    = Normal (Some (CodeEditor.set_editor
                      (CodeMirror.set_lines
                         (imap (mark_line (CodeEditor.editor e0) bps)
                            (CodeMirror.lines (CodeEditor.editor e0)))
                         (CodeEditor.editor e0))
                      e0)).
Proof.
  induction bps as [|bp bps IH]; intros e0.
  - cbn. do 2 f_equal.
    rewrite (imap_ext _ (λ _ l, l)).
    + assert (Hid : ∀ ls : list CodeMirror.Line, imap (λ _ l, l) ls = ls).
      { intros ls. apply list_eq. intros i. rewrite list_lookup_imap.
        destruct (ls !! i); reflexivity. }
      rewrite Hid. destruct e0 as [d [ls n g c] t]. reflexivity.
    + intros i l _. unfold mark_line.
      destruct (decide (reached _ [] i)) as [Hr|_]; [inversion Hr|reflexivity].
  - cbn [forEach]. cbn [mbind Completion_bind deref].
    rewrite IH.
    set (k := Z.to_nat (CodeMirror.clipLine (CodeEditor.editor e0)
                          (IDebugger.line bp - 1))).
    set (setm := CodeMirror.setGutterMarker_line "breakpoints"
                   (Some Private.createMarkerNode)).
    assert (Hc : CodeMirror.lineCount
                   (CodeEditor.editor
                      (CodeEditor.set_editor
                         (CodeMirror.setGutterMarker (CodeEditor.editor e0)
                            (IDebugger.line bp - 1) "breakpoints"
                            (Some Private.createMarkerNode)) e0))
                 = CodeMirror.lineCount (CodeEditor.editor e0))
      by apply setGutterMarker_lineCount.
    unfold CodeEditor.set_editor, CodeMirror.set_lines. cbn.
    do 4 f_equal.
    apply list_eq. intros i. rewrite !list_lookup_imap.
    fold k. fold setm.
    cbn in Hc.
    destruct (decide (k = i)) as [<-|Hne].
    + rewrite list_lookup_alter_eq.
      destruct (CodeMirror.lines (CodeEditor.editor e0) !! k) as [l|]; [|reflexivity].
      apply (f_equal Some). rewrite (mark_line_lineCount _ _ bps k (setm l) Hc).
      unfold mark_line.
      destruct (decide (reached (CodeEditor.editor e0) (bp :: bps) k)) as [_|Hn].
      * destruct (decide (reached (CodeEditor.editor e0) bps k)); [|reflexivity].
        apply setGutterMarker_line_idem.
      * exfalso. apply Hn. apply Exists_cons_hd. reflexivity.
    + rewrite list_lookup_alter_ne by exact Hne.
      destruct (CodeMirror.lines (CodeEditor.editor e0) !! i) as [l|]; [|reflexivity].
      apply (f_equal Some). rewrite (mark_line_lineCount _ _ bps i l Hc).
      unfold mark_line.
      destruct (decide (reached (CodeEditor.editor e0) bps i)) as [Hr|Hr];
        destruct (decide (reached (CodeEditor.editor e0) (bp :: bps) i)) as [Hr'|Hr'];
        try reflexivity.
      * exfalso. apply Hr'. apply Exists_cons_tl. exact Hr.
      * exfalso. apply Exists_cons in Hr' as [Hhd|Htl]; [apply Hne; exact Hhd|].
        apply Hr. exact Htl.
Qed.

(** [_addBreakpointsToEditor] in closed form, on a handler bound to the
    active session. *)
Lemma addBreakpointsToEditor_closed (h : EditorHandler) (e : CodeEditor.IEditor)
    (m : Debugger.Model) :
  _editor h = Some e →
  _debuggerModel h = Some m →
  _id h = Debugger.session_client_path (_debuggerService h) →
  _addBreakpointsToEditor h =
    Normal (set__editor
              (Some (CodeEditor.set_editor
                       (CodeMirror.set_lines
                          (imap (render_line (CodeEditor.editor e) (current_breakpoints h))
                             (CodeMirror.lines (CodeEditor.editor e)))
                          (CodeEditor.editor e))
                       e))
              h).
Proof.
  intros He Hm Hid. unfold current_breakpoints, _addBreakpointsToEditor.
  rewrite (getBreakpoints_Normal h e m He Hm). cbn.
  destruct (decide (_id h ≠ _)) as [Hn|_]; [contradiction|].
  rewrite He, clearGutter_unfold, render_loop_closed. cbn.
  do 3 f_equal. unfold CodeEditor.set_editor, CodeMirror.set_lines. cbn.
  do 2 f_equal.
  rewrite imap_fmap. apply imap_ext. intros i l _. cbn.
  unfold render_line. apply mark_line_lineCount.
  unfold CodeMirror.lineCount. cbn. rewrite length_map. reflexivity.
Qed.

(** ** The static cleaners *)

Lemma clearGutter_line_other_gutter (g : string) (l : CodeMirror.Line) :
  g ≠ "breakpoints" →
  gutter_marker g (clearGutter_line l) = gutter_marker g l.
Proof.
  intros Hg. unfold gutter_marker, clearGutter_line, CodeMirror.setGutterMarker_line.
  destruct (CodeMirror.gutterMarkers l) as [m|] eqn:Hm; cbn; [|rewrite Hm; reflexivity].
  destruct (decide (delete "breakpoints" m = ∅)) as [He|Hne]; cbn.
  - transitivity (delete "breakpoints" m !! g).
    + rewrite He. symmetry. apply lookup_empty.
    + apply lookup_delete_ne. congruence.
  - apply lookup_delete_ne. congruence.
Qed.

Lemma removeLineClass_clearGutter_comm (l : CodeMirror.Line) :
  clearGutter_line (CodeMirror.removeLineClass_line "wrap" LINE_HIGHLIGHT_CLASS l)
  = CodeMirror.removeLineClass_line "wrap" LINE_HIGHLIGHT_CLASS (clearGutter_line l).
Proof.
  destruct l as [t [m|] tc bc wc];
    unfold clearGutter_line, CodeMirror.removeLineClass_line,
      CodeMirror.setGutterMarker_line;
    repeat match goal with
      | |- context [decide ("wrap" = ?s)] =>
          destruct (decide ("wrap" = s)); [discriminate|]
      end; cbn; [|reflexivity].
  destruct (decide (delete "breakpoints" m = ∅)); reflexivity.
Qed.

(** X1: [clearGutter] removes the markers of the ['breakpoints'] gutter
    and nothing else: afterwards no line carries a breakpoint marker, while
    the markers of every other gutter, the text and the classes of each line,
    the options, the listeners and the text model are as before. *)
Theorem clearGutter_removes_only_breakpoint_markers (e : CodeEditor.IEditor) :
  ∃ e',
    clearGutter (Some e) = Some e' ∧
    CodeEditor.isDisposed e' = CodeEditor.isDisposed e ∧
    CodeEditor.model_value_text e' = CodeEditor.model_value_text e ∧
    CodeMirror.opt_lineNumbers (CodeEditor.editor e') =
      CodeMirror.opt_lineNumbers (CodeEditor.editor e) ∧
    CodeMirror.opt_gutters (CodeEditor.editor e') =
      CodeMirror.opt_gutters (CodeEditor.editor e) ∧
    CodeMirror.gutterClick (CodeEditor.editor e') =
      CodeMirror.gutterClick (CodeEditor.editor e) ∧
    CodeMirror.lineCount (CodeEditor.editor e') = CodeMirror.lineCount (CodeEditor.editor e) ∧
    ∀ i l', CodeMirror.lines (CodeEditor.editor e') !! i = Some l' →
      ∃ l, CodeMirror.lines (CodeEditor.editor e) !! i = Some l ∧
           gutter_marker "breakpoints" l' = None ∧
           (∀ g, g ≠ "breakpoints" → gutter_marker g l' = gutter_marker g l) ∧
           CodeMirror.text l' = CodeMirror.text l ∧
           CodeMirror.textClass l' = CodeMirror.textClass l ∧
           CodeMirror.bgClass l' = CodeMirror.bgClass l ∧
           CodeMirror.wrapClass l' = CodeMirror.wrapClass l.
Proof.
  eexists. split; [apply clearGutter_unfold|]. cbn.
  repeat (split; [reflexivity|]).
  split; [unfold CodeMirror.lineCount; cbn; rewrite length_map; reflexivity|].
  intros i l' Hl'. rewrite list_lookup_fmap in Hl'.
  destruct (CodeMirror.lines (CodeEditor.editor e) !! i) as [l|]; cbn in Hl';
    [|discriminate].
  injection Hl' as <-. exists l. split; [reflexivity|].
  split; [apply clearGutter_line_marker|].
  split; [intros g Hg; apply clearGutter_line_other_gutter; exact Hg|].
  apply clearGutter_line_cases.
Qed.

Lemma filter_none {A : Type} (P : A → Prop) `{∀ x, Decision (P x)} (l : list A) :
  (∀ x, x ∈ l → ¬ P x) → filter P l = [].
Proof.
  induction l as [|a l IH]; intros Hall; [reflexivity|].
  rewrite filter_cons_False by (apply Hall; left).
  apply IH. intros x Hx. apply Hall. right. exact Hx.
Qed.

Lemma line_highlighted_lookup (cm : CodeMirror.Editor) (i : Z) :
  line_highlighted cm i ↔
  ∃ l, CodeMirror.lines cm !! Z.to_nat i = Some l ∧ highlighted l.
Proof.
  unfold line_highlighted.
  destruct (CodeMirror.lines cm !! Z.to_nat i) as [l|].
  - split; [eauto|]. intros (l' & [= <-] & Hh). exact Hh.
  - split; [contradiction|]. intros (l' & Hl & _). discriminate.
Qed.

(** The marked lines and the highlighted lines are determined by the
    markers, resp. the wrapper classes, of the lines. *)
Lemma marked_lines_ext (cm cm' : CodeMirror.Editor) :
  (∀ i, CodeMirror.gutterMarkers <$> CodeMirror.lines cm' !! i =
        CodeMirror.gutterMarkers <$> CodeMirror.lines cm !! i) →
  CodeMirror.lineCount cm' = CodeMirror.lineCount cm →
  marked_lines cm' = marked_lines cm.
Proof.
  intros Hl Hc. unfold marked_lines. rewrite Hc.
  apply list_filter_iff. intros i. unfold line_marked.
  specialize (Hl (Z.to_nat i)).
  destruct (CodeMirror.lines cm' !! Z.to_nat i), (CodeMirror.lines cm !! Z.to_nat i);
    cbn in *; try discriminate; [|reflexivity].
  injection Hl as ->. reflexivity.
Qed.

Lemma highlighted_lines_ext (cm cm' : CodeMirror.Editor) :
  (∀ i, CodeMirror.wrapClass <$> CodeMirror.lines cm' !! i =
        CodeMirror.wrapClass <$> CodeMirror.lines cm !! i) →
  CodeMirror.lineCount cm' = CodeMirror.lineCount cm →
  highlighted_lines cm' = highlighted_lines cm.
Proof.
  intros Hl Hc. unfold highlighted_lines. rewrite Hc.
  apply list_filter_iff. intros i. unfold line_highlighted, highlighted.
  specialize (Hl (Z.to_nat i)).
  destruct (CodeMirror.lines cm' !! Z.to_nat i), (CodeMirror.lines cm !! Z.to_nat i);
    cbn in *; try discriminate; [|reflexivity].
  injection Hl as ->. reflexivity.
Qed.

(** X2: [clearHighlight] on a live editor removes the highlight class
    from the wrapper of every line and nothing else: the other wrapper
    classes, the text and background classes, the text and the gutter markers
    of each line are as before. *)
Theorem clearHighlight_removes_only_the_highlight (e : CodeEditor.IEditor) :
  CodeEditor.isDisposed e = false →
  ∃ e',
    clearHighlight (Some e) = Some e' ∧
    CodeEditor.isDisposed e' = false ∧
    CodeEditor.model_value_text e' = CodeEditor.model_value_text e ∧
    CodeMirror.lineCount (CodeEditor.editor e') = CodeMirror.lineCount (CodeEditor.editor e) ∧
    highlighted_lines (CodeEditor.editor e') = [] ∧
    marked_lines (CodeEditor.editor e') = marked_lines (CodeEditor.editor e) ∧
    ∀ i l', CodeMirror.lines (CodeEditor.editor e') !! i = Some l' →
      ∃ l, CodeMirror.lines (CodeEditor.editor e) !! i = Some l ∧
           CodeMirror.wrapClass l' = CodeMirror.wrapClass l ∖ {[ LINE_HIGHLIGHT_CLASS ]} ∧
           CodeMirror.gutterMarkers l' = CodeMirror.gutterMarkers l ∧
           CodeMirror.text l' = CodeMirror.text l ∧
           CodeMirror.textClass l' = CodeMirror.textClass l ∧
           CodeMirror.bgClass l' = CodeMirror.bgClass l.
Proof.
  intros Hd. eexists. split; [apply clearHighlight_live; exact Hd|]. cbn.
  assert (Hc : CodeMirror.lineCount
                 (CodeMirror.eachLine (CodeEditor.editor e)
                    (CodeMirror.removeLineClass_line "wrap" LINE_HIGHLIGHT_CLASS))
               = CodeMirror.lineCount (CodeEditor.editor e)).
  { unfold CodeMirror.lineCount. cbn. rewrite length_map. reflexivity. }
  split; [exact Hd|]. split; [reflexivity|]. split; [exact Hc|].
  split; [|split].
  - apply filter_none. intros i _ Hh.
    apply line_highlighted_lookup in Hh as (l' & Hl' & Hh).
    cbn in Hl'. rewrite list_lookup_fmap in Hl'.
    destruct (CodeMirror.lines (CodeEditor.editor e) !! Z.to_nat i) as [l|];
      cbn in Hl'; [|discriminate].
    injection Hl' as <-. exact (removeLineClass_line_highlighted l Hh).
  - apply marked_lines_ext; [|exact Hc].
    intros i. cbn. rewrite list_lookup_fmap.
    destruct (CodeMirror.lines (CodeEditor.editor e) !! i); reflexivity.
  - intros i l' Hl'. rewrite list_lookup_fmap in Hl'.
    destruct (CodeMirror.lines (CodeEditor.editor e) !! i) as [l|]; cbn in Hl';
      [|discriminate].
    injection Hl' as <-. exists l. split; [reflexivity|].
    unfold CodeMirror.removeLineClass_line.
    repeat case_decide; try discriminate. cbn. repeat split.
Qed.

Lemma clearHighlight_removes_only_the_highlight_witness :
  ∃ e',
    clearHighlight (Some Sample.editor_lit_live) = Some e' ∧
    highlighted_lines (CodeEditor.editor e') = [].
Proof.
  destruct (clearHighlight_removes_only_the_highlight Sample.editor_lit_live eq_refl)
    as (e' & Hrun & _ & _ & _ & Hh & _).
  exists e'. split; [exact Hrun | exact Hh].
Defined.

(** X3: the two static cleaners are idempotent and commute: clearing
    twice is clearing once, and the highlight and the breakpoint markers can
    be cleared in either order. *)
Theorem cleaners_idempotent_and_commute (editor : option CodeEditor.IEditor) :
  clearGutter (clearGutter editor) = clearGutter editor ∧
  clearHighlight (clearHighlight editor) = clearHighlight editor ∧
  clearGutter (clearHighlight editor) = clearHighlight (clearGutter editor).
Proof.
  split; [|split; [apply clearHighlight_idem|]].
  - destruct editor as [e|]; [|reflexivity].
    rewrite !clearGutter_unfold. cbn.
    unfold CodeEditor.set_editor, CodeMirror.eachLine, CodeMirror.set_lines. cbn.
    do 3 f_equal. rewrite map_map. apply map_ext. intros l.
    apply clearGutter_line_idem.
  - destruct editor as [e|]; [|reflexivity].
    destruct (CodeEditor.isDisposed e) eqn:Hd.
    + rewrite (clearHighlight_gone (Some e)) by exact Hd.
      rewrite clearGutter_unfold.
      rewrite clearHighlight_gone; [reflexivity|]. cbn. exact Hd.
    + rewrite (clearHighlight_live e Hd), !clearGutter_unfold.
      rewrite clearHighlight_live by exact Hd.
      unfold CodeEditor.set_editor, CodeMirror.eachLine, CodeMirror.set_lines. cbn.
      do 3 f_equal. rewrite !map_map. apply map_ext. intros l.
      apply removeLineClass_clearGutter_comm.
Qed.

(** ** Highlight and markers are independent *)

(** X4: whenever [showCurrentLine] returns, on a live or a disposed
    editor and for any line number, the gutter markers and the text of every
    line are as before: highlighting never adds or removes a breakpoint
    marker. *)
Theorem showCurrentLine_keeps_markers (editor : option CodeEditor.IEditor) (L : Z)
    (e' : CodeEditor.IEditor) :
  showCurrentLine editor L = Normal (Some e') →
  ∃ e,
    editor = Some e ∧
    CodeEditor.isDisposed e' = CodeEditor.isDisposed e ∧
    CodeEditor.model_value_text e' = CodeEditor.model_value_text e ∧
    CodeMirror.lineCount (CodeEditor.editor e') = CodeMirror.lineCount (CodeEditor.editor e) ∧
    marked_lines (CodeEditor.editor e') = marked_lines (CodeEditor.editor e) ∧
    ∀ i l', CodeMirror.lines (CodeEditor.editor e') !! i = Some l' →
      ∃ l, CodeMirror.lines (CodeEditor.editor e) !! i = Some l ∧
           CodeMirror.gutterMarkers l' = CodeMirror.gutterMarkers l ∧
           CodeMirror.text l' = CodeMirror.text l.
Proof.
  intros Hrun. destruct editor as [e|]; [|discriminate].
  exists e. split; [reflexivity|].
  set (rm := λ l, if CodeEditor.isDisposed e then l
                  else CodeMirror.removeLineClass_line "wrap" LINE_HIGHLIGHT_CLASS l).
  assert (Hlines : CodeEditor.isDisposed e' = CodeEditor.isDisposed e ∧
                   CodeEditor.model_value_text e' = CodeEditor.model_value_text e ∧
                   ∃ k, CodeMirror.lines (CodeEditor.editor e') =
                     alter (CodeMirror.addLineClass_line "wrap" LINE_HIGHLIGHT_CLASS) k
                       (map rm (CodeMirror.lines (CodeEditor.editor e)))).
  { unfold showCurrentLine, clearHighlight in Hrun. subst rm.
    destruct (CodeEditor.isDisposed e) eqn:Hd; cbn in Hrun; injection Hrun as <-; cbn.
    - rewrite Hd. repeat split. eexists. rewrite map_id. reflexivity.
    - rewrite Hd. repeat split. eexists. reflexivity. }
  destruct Hlines as (Hd & Ht & k & Hlines).
  assert (Hline : ∀ i l', CodeMirror.lines (CodeEditor.editor e') !! i = Some l' →
            ∃ l, CodeMirror.lines (CodeEditor.editor e) !! i = Some l ∧
                 CodeMirror.gutterMarkers l' = CodeMirror.gutterMarkers l ∧
                 CodeMirror.text l' = CodeMirror.text l).
  { intros i l' Hl'. rewrite Hlines in Hl'.
    assert (Hrm : ∀ l, CodeMirror.gutterMarkers (rm l) = CodeMirror.gutterMarkers l ∧
                       CodeMirror.text (rm l) = CodeMirror.text l).
    { intros l. subst rm. cbn. destruct (CodeEditor.isDisposed e); split; reflexivity. }
    destruct (decide (k = i)) as [->|Hne].
    - rewrite list_lookup_alter_eq, list_lookup_fmap in Hl'.
      destruct (CodeMirror.lines (CodeEditor.editor e) !! i) as [l|]; cbn in Hl';
        [|discriminate].
      injection Hl' as <-. exists l. split; [reflexivity|].
      destruct (Hrm l) as [<- <-]. split; reflexivity.
    - rewrite list_lookup_alter_ne, list_lookup_fmap in Hl' by exact Hne.
      destruct (CodeMirror.lines (CodeEditor.editor e) !! i) as [l|]; cbn in Hl';
        [|discriminate].
      injection Hl' as <-. exists l. split; [reflexivity|]. apply Hrm. }
  assert (Hc : CodeMirror.lineCount (CodeEditor.editor e') =
               CodeMirror.lineCount (CodeEditor.editor e)).
  { unfold CodeMirror.lineCount. rewrite Hlines, length_alter, length_map. reflexivity. }
  split; [exact Hd|]. split; [exact Ht|]. split; [exact Hc|]. split; [|exact Hline].
  apply marked_lines_ext; [|exact Hc].
  intros i.
  destruct (CodeMirror.lines (CodeEditor.editor e') !! i) as [l'|] eqn:Hl'.
  - destruct (Hline i l' Hl') as (l & Hl & Hg & _). rewrite Hl. cbn. rewrite Hg.
    reflexivity.
  - apply lookup_ge_None in Hl'.
    assert (Hge : (length (CodeMirror.lines (CodeEditor.editor e)) ≤ i)%nat).
    { unfold CodeMirror.lineCount in Hc. lia. }
    apply lookup_ge_None in Hge. rewrite Hge. reflexivity.
Qed.

Lemma showCurrentLine_keeps_markers_witness :
  ∃ e',
    showCurrentLine (Some Sample.editor_live) 3 = Normal (Some e') ∧
    marked_lines (CodeEditor.editor e') = [1].
Proof.
  eexists. split; [reflexivity|].
  destruct (showCurrentLine_keeps_markers (Some Sample.editor_live) 3 _ eq_refl)
    as (e & He & _ & _ & _ & Hm & _).
  injection He as <-. rewrite Hm. vm_compute. reflexivity.
Defined.

(** ** Rendering *)

Lemma render_line_frame (cm : CodeMirror.Editor) (bps : list IDebugger.IBreakpoint)
    (i : nat) (l : CodeMirror.Line) :
  CodeMirror.text (render_line cm bps i l) = CodeMirror.text l ∧
  CodeMirror.textClass (render_line cm bps i l) = CodeMirror.textClass l ∧
  CodeMirror.bgClass (render_line cm bps i l) = CodeMirror.bgClass l ∧
  CodeMirror.wrapClass (render_line cm bps i l) = CodeMirror.wrapClass l ∧
  (∀ g, g ≠ "breakpoints" →
        gutter_marker g (render_line cm bps i l) = gutter_marker g l) ∧
  gutter_marker "breakpoints" (render_line cm bps i l) =
    (if decide (reached cm bps i) then Some Private.createMarkerNode else None).
Proof.
  pose proof (clearGutter_line_cases l) as (_ & Ht & Htc & Hbc & Hwc).
  unfold render_line, mark_line.
  destruct (decide (reached cm bps i)).
  - cbn. rewrite Ht, Htc, Hbc, Hwc. repeat (split; [reflexivity|]). split.
    + intros g Hg. rewrite <- (clearGutter_line_other_gutter g l Hg).
      unfold gutter_marker. cbn. rewrite lookup_insert_ne by congruence.
      destruct (CodeMirror.gutterMarkers (clearGutter_line l)); cbn;
        [reflexivity | apply lookup_empty].
    + apply setGutterMarker_line_marker.
  - rewrite Ht, Htc, Hbc, Hwc. repeat (split; [reflexivity|]). split.
    + intros g Hg. apply clearGutter_line_other_gutter. exact Hg.
    + apply clearGutter_line_marker.
Qed.

Lemma render_line_idem (cm : CodeMirror.Editor) (bps : list IDebugger.IBreakpoint)
    (i : nat) (l : CodeMirror.Line) :
  render_line cm bps i (render_line cm bps i l) = render_line cm bps i l.
Proof.
  unfold render_line, mark_line.
  destruct (decide (reached cm bps i)).
  - rewrite clearGutter_set_clearGutter. reflexivity.
  - apply clearGutter_line_idem.
Qed.

(** What a [changed] or [restored] notification does, case by case. *)
Lemma model_notification_cases (h h1 : EditorHandler) (ev : Event) :
  ev = BreakpointsChanged ∨ ev = BreakpointsRestored →
  handle h ev = Normal h1 →
  h1 = h ∨
  ∃ e m,
    _editor h = Some e ∧ CodeEditor.isDisposed e = false ∧
    _debuggerModel h = Some m ∧
    _id h = Debugger.session_client_path (_debuggerService h) ∧
    h1 = set__editor
           (Some (CodeEditor.set_editor
                    (CodeMirror.set_lines
                       (imap (render_line (CodeEditor.editor e) (current_breakpoints h))
                          (CodeMirror.lines (CodeEditor.editor e)))
                       (CodeEditor.editor e))
                    e))
           h.
Proof.
  intros Hev Hrun.
  assert (Hrun' : (if editor_gone (_editor h) then Normal h
                   else _addBreakpointsToEditor h) = Normal h1)
    by (destruct Hev as [-> | ->]; exact Hrun).
  clear Hrun. destruct (editor_gone (_editor h)) eqn:Hgone.
  { left. congruence. }
  destruct (_editor h) as [e|] eqn:He; [|discriminate]. cbn in Hgone.
  destruct (_debuggerModel h) as [m|] eqn:Hm.
  - destruct (decide (_id h = Debugger.session_client_path (_debuggerService h)))
      as [Hid|Hid].
    + right. exists e, m. repeat (split; [assumption || reflexivity|]).
      rewrite (addBreakpointsToEditor_closed h e m He Hm Hid) in Hrun'.
      congruence.
    + left. unfold _addBreakpointsToEditor in Hrun'.
      rewrite (getBreakpoints_Normal h e m He Hm) in Hrun'. cbn in Hrun'.
      destruct (decide (_id h ≠ _)); [congruence|contradiction].
  - unfold _addBreakpointsToEditor, _getBreakpoints in Hrun'.
    rewrite He, Hm in Hrun'. discriminate.
Qed.

(** X5: a [changed] or [restored] notification touches nothing but the
    ['breakpoints'] gutter: the text, the classes (hence the highlight) and
    the markers of the other gutters of every line, the options, the
    listeners, the text model, the service (no request is issued) and the
    handler's connections are as before. *)
Theorem rendering_touches_only_breakpoint_gutter (h h1 : EditorHandler) (ev : Event)
    (e : CodeEditor.IEditor) :
  ev = BreakpointsChanged ∨ ev = BreakpointsRestored →
  handle h ev = Normal h1 →
  _editor h = Some e →
  _debuggerService h1 = _debuggerService h ∧
  connections h1 = connections h ∧
  isDisposed h1 = isDisposed h ∧
  ∃ e1,
    _editor h1 = Some e1 ∧
    CodeEditor.isDisposed e1 = CodeEditor.isDisposed e ∧
    CodeEditor.model_value_text e1 = CodeEditor.model_value_text e ∧
    CodeMirror.opt_lineNumbers (CodeEditor.editor e1) =
      CodeMirror.opt_lineNumbers (CodeEditor.editor e) ∧
    CodeMirror.opt_gutters (CodeEditor.editor e1) =
      CodeMirror.opt_gutters (CodeEditor.editor e) ∧
    CodeMirror.gutterClick (CodeEditor.editor e1) =
      CodeMirror.gutterClick (CodeEditor.editor e) ∧
    CodeMirror.lineCount (CodeEditor.editor e1) = CodeMirror.lineCount (CodeEditor.editor e) ∧
    highlighted_lines (CodeEditor.editor e1) = highlighted_lines (CodeEditor.editor e) ∧
    ∀ i l1, CodeMirror.lines (CodeEditor.editor e1) !! i = Some l1 →
      ∃ l, CodeMirror.lines (CodeEditor.editor e) !! i = Some l ∧
           CodeMirror.text l1 = CodeMirror.text l ∧
           CodeMirror.textClass l1 = CodeMirror.textClass l ∧
           CodeMirror.bgClass l1 = CodeMirror.bgClass l ∧
           CodeMirror.wrapClass l1 = CodeMirror.wrapClass l ∧
           ∀ g, g ≠ "breakpoints" → gutter_marker g l1 = gutter_marker g l.
Proof.
  intros Hev Hrun He.
  destruct (model_notification_cases h h1 ev Hev Hrun)
    as [-> | (e0 & m & He0 & Hd & Hm & Hid & ->)].
  - repeat (split; [reflexivity|]). exists e. split; [exact He|].
    repeat (split; [reflexivity|]). intros i l1 Hl1. exists l1.
    split; [exact Hl1|]. repeat (split; [reflexivity|]). reflexivity.
  - rewrite He in He0. injection He0 as <-.
    repeat (split; [reflexivity|]). eexists. split; [reflexivity|]. cbn.
    repeat (split; [reflexivity|]).
    assert (Hc : Z.of_nat (length (imap (render_line (CodeEditor.editor e)
                                           (current_breakpoints h))
                                     (CodeMirror.lines (CodeEditor.editor e))))
                 = CodeMirror.lineCount (CodeEditor.editor e)).
    { rewrite length_imap. reflexivity. }
    split; [exact Hc|]. split.
    + apply highlighted_lines_ext; [|exact Hc].
      intros i. cbn. rewrite list_lookup_imap.
      destruct (CodeMirror.lines (CodeEditor.editor e) !! i) as [l|]; [|reflexivity].
      cbn. f_equal. apply render_line_frame.
    + intros i l1 Hl1. rewrite list_lookup_imap in Hl1.
      destruct (CodeMirror.lines (CodeEditor.editor e) !! i) as [l|]; cbn in Hl1;
        [|discriminate].
      injection Hl1 as <-. exists l. split; [reflexivity|].
      pose proof (render_line_frame (CodeEditor.editor e) (current_breakpoints h) i l)
        as (Ht & Htc & Hbc & Hwc & Hg & _).
      auto.
Qed.

Lemma rendering_touches_only_breakpoint_gutter_witness :
  ∃ h1 e1,
    handle Sample.handler BreakpointsRestored = Normal h1 ∧
    _editor h1 = Some e1 ∧
    CodeEditor.model_value_text e1 = "a = 1\nb = 2\nc = 3".
Proof.
  eexists. 
  destruct (rendering_touches_only_breakpoint_gutter Sample.handler _ BreakpointsRestored
              Sample.editor_live (or_intror eq_refl) eq_refl eq_refl)
    as (_ & _ & _ & e1 & He1 & _ & Ht & _).
  exists e1. split; [reflexivity|]. split; [exact He1 | exact Ht].
Defined.

(** X6: rendering is idempotent: once a [changed] or [restored]
    notification was handled, handling another one (the model being the
    same) leaves the handler and its editor exactly as they are. *)
Theorem rendering_idempotent (h h1 : EditorHandler) (ev ev' : Event) :
  ev = BreakpointsChanged ∨ ev = BreakpointsRestored →
  ev' = BreakpointsChanged ∨ ev' = BreakpointsRestored →
  handle h ev = Normal h1 →
  handle h1 ev' = Normal h1.
Proof.
  intros Hev Hev' Hrun.
  assert (Hsame : ∀ x, handle x ev' = handle x ev).
  { intros x. destruct Hev as [-> | ->], Hev' as [-> | ->]; reflexivity. }
  destruct (model_notification_cases h h1 ev Hev Hrun)
    as [-> | (e & m & He & Hd & Hm & Hid & ->)].
  - rewrite Hsame. exact Hrun.
  - set (e1 := CodeEditor.set_editor
                 (CodeMirror.set_lines
                    (imap (render_line (CodeEditor.editor e) (current_breakpoints h))
                       (CodeMirror.lines (CodeEditor.editor e)))
                    (CodeEditor.editor e)) e).
    set (h1 := set__editor (Some e1) h).
    assert (Hh : handle h1 ev' = _addBreakpointsToEditor h1).
    { destruct Hev' as [-> | ->]; cbn; unfold on_changed, on_restored; cbn;
        rewrite Hd; reflexivity. }
    rewrite Hh.
    rewrite (addBreakpointsToEditor_closed h1 e1 m eq_refl Hm Hid).
    assert (Hbps : current_breakpoints h1 = current_breakpoints h).
    { unfold current_breakpoints, _getBreakpoints. cbn. rewrite He. reflexivity. }
    rewrite Hbps.
    assert (Hlines : imap (render_line (CodeEditor.editor e1) (current_breakpoints h))
                       (CodeMirror.lines (CodeEditor.editor e1))
                     = CodeMirror.lines (CodeEditor.editor e1)).
    { apply list_eq. intros i. cbn. rewrite !list_lookup_imap.
      destruct (CodeMirror.lines (CodeEditor.editor e) !! i) as [l|]; [|reflexivity].
      cbn. f_equal. unfold render_line at 1.
      rewrite (mark_line_lineCount (CodeEditor.editor e)).
      - apply render_line_idem.
      - unfold CodeMirror.lineCount. cbn. rewrite length_imap. reflexivity. }
    rewrite Hlines. reflexivity.
Qed.

Lemma rendering_idempotent_witness :
  ∃ h1,
    handle Sample.handler BreakpointsChanged = Normal h1 ∧
    handle h1 BreakpointsRestored = Normal h1.
Proof.
  eexists. split; [reflexivity|].
  apply (rendering_idempotent Sample.handler _ BreakpointsChanged BreakpointsRestored);
    [left | right | ]; reflexivity.
Defined.

(** ** From the model to the gutter and back *)

Lemma sendEditorBreakpoints_closed (h : EditorHandler) (e : CodeEditor.IEditor) :
  _editor h = Some e →
  CodeEditor.isDisposed e = false →
  _sendEditorBreakpoints h =
    Normal (set__debuggerService
              (Debugger.void
                 (Debugger.updateBreakpoints (CodeEditor.model_value_text e)
                    (map (λ L, Private.createBreakpoint
                                 (Debugger.session_client_name (_debuggerService h))
                                 (L + 1))
                         (marked_lines (CodeEditor.editor e)))
                    (_path h) (_debuggerService h)))
              h).
Proof.
  intros He Hd.
  destruct (getBreakpointsFromEditor_marked h e He) as (infos & Hinfos & Hmap).
  unfold _sendEditorBreakpoints. rewrite He. cbn. rewrite Hd, Hinfos. cbn.
  rewrite <- Hmap, map_map. reflexivity.
Qed.

Lemma render_line_marked (cm : CodeMirror.Editor) (bps : list IDebugger.IBreakpoint)
    (i : nat) (l : CodeMirror.Line) :
  (∀ g, g ≠ "breakpoints" → gutter_marker g l = None) →
  is_Some (CodeMirror.gutterMarkers (render_line cm bps i l)) ↔ reached cm bps i.
Proof.
  intros Hother.
  pose proof (render_line_frame cm bps i l) as (_ & _ & _ & _ & Hg & Hbp).
  destruct (decide (reached cm bps i)) as [Hr|Hr].
  - split; [intros _; exact Hr|]. intros _.
    unfold gutter_marker in Hbp.
    destruct (CodeMirror.gutterMarkers (render_line cm bps i l)); [eauto|discriminate].
  - split; [|contradiction]. intros [g Hsome]. exfalso.
    unfold render_line, mark_line in Hsome, Hg.
    destruct (decide (reached cm bps i)); [contradiction|].
    pose proof (clearGutter_line_cases l) as [[Hn | (g' & Hg' & Hne & Hnb)] _].
    + congruence.
    + apply Hne. apply map_eq. intros k. rewrite lookup_empty.
      destruct (decide (k = "breakpoints")) as [->|Hk]; [exact Hnb|].
      specialize (Hg k Hk). rewrite (Hother k Hk) in Hg.
      unfold gutter_marker in Hg. rewrite Hg' in Hg. exact Hg.
Qed.

(** X7: rendering the model's breakpoints and then letting the debounce
    elapse sends the model's lines back: on a live editor bound to the active
    session, whose lines carry no marker of another gutter, when every
    breakpoint's line is a line of the document, the request issued after a
    [changed] notification holds one record per distinct line of the model's
    breakpoints, each a fresh record named after the session. *)
Theorem render_then_debounce_returns_model_lines (h : EditorHandler)
    (e : CodeEditor.IEditor) (m : Debugger.Model) :
  _editor h = Some e →
  CodeEditor.isDisposed e = false →
  _debuggerModel h = Some m →
  _id h = Debugger.session_client_path (_debuggerService h) →
  Forall (λ bp, 1 ≤ IDebugger.line bp ≤ CodeMirror.lineCount (CodeEditor.editor e))
         (current_breakpoints h) →
  (∀ l g, l ∈ CodeMirror.lines (CodeEditor.editor e) → g ≠ "breakpoints" →
          gutter_marker g l = None) →
  ∃ h1 h2 submitted,
    handle h BreakpointsChanged = Normal h1 ∧
    handle h1 ActivityStopped = Normal h2 ∧
    Debugger.updateBreakpoints_log (_debuggerService h2) =
      Debugger.updateBreakpoints_log (_debuggerService h) ++
        [Debugger.mkUpdateBreakpoints (CodeEditor.model_value_text e) submitted (_path h)] ∧
    (∀ n, n ∈ map IDebugger.line submitted ↔
          n ∈ map IDebugger.line (current_breakpoints h)) ∧
    NoDup (map IDebugger.line submitted) ∧
    Forall (λ bp, bp = Private.createBreakpoint
                         (Debugger.session_client_name (_debuggerService h))
                         (IDebugger.line bp)) submitted.
Proof.
  intros He Hd Hm Hid Hrange Hother.
  set (bps := current_breakpoints h) in *.
  set (e1 := CodeEditor.set_editor
               (CodeMirror.set_lines
                  (imap (render_line (CodeEditor.editor e) bps)
                     (CodeMirror.lines (CodeEditor.editor e)))
                  (CodeEditor.editor e)) e).
  set (h1 := set__editor (Some e1) h).
  assert (Hrun1 : handle h BreakpointsChanged = Normal h1).
  { cbn. unfold on_changed. rewrite He. cbn. rewrite Hd.
    apply (addBreakpointsToEditor_closed h e m He Hm Hid). }
  pose proof (sendEditorBreakpoints_closed h1 e1 eq_refl Hd) as Hrun2.
  set (name := Debugger.session_client_name (_debuggerService h)) in *.
  set (submitted := map (λ L, Private.createBreakpoint name (L + 1))
                        (marked_lines (CodeEditor.editor e1))).
  assert (Hc : CodeMirror.lineCount (CodeEditor.editor e1) =
               CodeMirror.lineCount (CodeEditor.editor e)).
  { unfold CodeMirror.lineCount. cbn. rewrite length_imap. reflexivity. }
  assert (Hmarked : ∀ L, L ∈ marked_lines (CodeEditor.editor e1) ↔
            0 ≤ L < CodeMirror.lineCount (CodeEditor.editor e) ∧
            reached (CodeEditor.editor e) bps (Z.to_nat L)).
  { intros L. rewrite elem_of_marked_lines, Hc. cbn.
    split.
    - intros (HL & l1 & Hl1 & Hsome). split; [exact HL|].
      rewrite list_lookup_imap in Hl1.
      destruct (CodeMirror.lines (CodeEditor.editor e) !! Z.to_nat L) as [l|] eqn:Hl;
        cbn in Hl1; [|discriminate].
      injection Hl1 as <-.
      apply (render_line_marked _ _ _ l); [|exact Hsome].
      intros g Hg. apply Hother; [|exact Hg].
      apply list_elem_of_lookup. eauto.
    - intros (HL & Hr). split; [exact HL|].
      destruct (CodeMirror.lines (CodeEditor.editor e) !! Z.to_nat L) as [l|] eqn:Hl.
      + exists (render_line (CodeEditor.editor e) bps (Z.to_nat L) l).
        rewrite list_lookup_imap, Hl. split; [reflexivity|].
        apply render_line_marked; [|exact Hr].
        intros g Hg. apply Hother; [|exact Hg].
        apply list_elem_of_lookup. eauto.
      + apply lookup_ge_None in Hl. unfold CodeMirror.lineCount in HL. lia. }
  exists h1, (set__debuggerService
                (Debugger.void
                   (Debugger.updateBreakpoints (CodeEditor.model_value_text e1) submitted
                      (_path h1) (_debuggerService h1))) h1), submitted.
  split; [exact Hrun1|]. split; [exact Hrun2|]. split; [reflexivity|].
  split; [|split].
  - intros n. subst submitted. rewrite map_map. cbn.
    rewrite !list_elem_of_fmap. split.
    + intros (L & -> & HL). apply Hmarked in HL as (HL & Hr).
      unfold reached in Hr. apply Exists_exists in Hr as (bp & Hin & Hbp).
      exists bp. split; [|exact Hin].
      pose proof (proj1 (Forall_forall _ _) Hrange bp Hin) as Hb. cbn beta in Hb.
      rewrite clipLine_in_range in Hbp by lia. lia.
    + intros (bp & -> & Hin).
      pose proof (proj1 (Forall_forall _ _) Hrange bp Hin) as Hb. cbn beta in Hb.
      exists (IDebugger.line bp - 1). split; [lia|].
      apply Hmarked. split; [lia|].
      unfold reached. apply Exists_exists. exists bp. split; [exact Hin|].
      rewrite clipLine_in_range by lia. reflexivity.
  - subst submitted. rewrite map_map. cbn.
    apply NoDup_fmap_2.
    + intros x y Hxy. lia.
    + unfold marked_lines. apply NoDup_filter, NoDup_seqZ.
  - subst submitted. apply Forall_forall. intros bp Hbp.
    apply list_elem_of_fmap in Hbp as (L & -> & _). reflexivity.
Qed.

Lemma render_then_debounce_returns_model_lines_witness :
  ∃ h1 h2,
    handle Sample.handler BreakpointsChanged = Normal h1 ∧
    handle h1 ActivityStopped = Normal h2 ∧
    Debugger.updateBreakpoints_log (_debuggerService h2) =
      [Debugger.mkUpdateBreakpoints "a = 1\nb = 2\nc = 3"
         [Private.createBreakpoint "kernel-1" 1; Private.createBreakpoint "kernel-1" 3]
         (Some "foo.py")].
Proof.
  destruct (render_then_debounce_returns_model_lines Sample.handler Sample.editor_live
              (Debugger.mkModel Sample.bpModel) eq_refl eq_refl eq_refl eq_refl)
    as (h1 & h2 & sub & Hrun1 & Hrun2 & _).
  - vm_compute. repeat constructor; discriminate.
  - intros l g Hl Hg. unfold gutter_marker.
    apply list_elem_of_In in Hl. cbn in Hl.
    destruct Hl as [<- | [<- | [<- | []]]]; cbn; try reflexivity.
    apply lookup_singleton_ne. congruence.
  - exists h1, h2. split; [exact Hrun1|]. split; [exact Hrun2|].
    vm_compute in Hrun1. injection Hrun1 as <-.
    vm_compute in Hrun2. injection Hrun2 as <-. vm_compute. reflexivity.
Defined.

(** ** Gutter clicks *)




(** ** Errors *)

(** X9: the handler throws exactly when it dereferences a missing editor,
    model or monitor: a click on a line of the document by the bound session
    without editor or model; the debounce without editor; a [changed] or
    [restored] notification on a live editor without model (whatever the
    session); [dispose] of a handler that is not disposed and has no monitor.
    Frame and model changes never throw. *)
Theorem handle_throws_iff (h : EditorHandler) (ev : Event) (err : Error) :
  handle h ev = Throw err ↔
  match ev with
  | GutterClick editor lineNumber =>
      is_Some (CodeMirror.lineInfo editor lineNumber) ∧
      _id h = Debugger.session_client_path (_debuggerService h) ∧
      (_editor h = None ∨ _debuggerModel h = None)
  | ActivityStopped => _editor h = None
  | BreakpointsChanged | BreakpointsRestored =>
      editor_gone (_editor h) = false ∧ _debuggerModel h = None
  | CurrentFrameChanged | ModelChanged => False
  | Dispose => isDisposed h = false ∧ _editorMonitor h = None
  end.
Proof.
  destruct err.
  assert (Hrender : _addBreakpointsToEditor h = Throw TypeError ↔
                    _editor h = None ∨ _debuggerModel h = None).
  { unfold _addBreakpointsToEditor, _getBreakpoints.
    destruct (_editor h) as [e|] eqn:He; cbn; [|split; [auto|reflexivity]].
    destruct (_debuggerModel h) as [m|] eqn:Hm; cbn; [|split; [auto|reflexivity]].
    destruct (decide _).
    - split; [discriminate|]. intros [|]; discriminate.
    - match goal with
      | |- context [forEach ?f ?l (Some ?x)] => rewrite (render_loop_closed l x)
      end.
      cbn. split; [discriminate|]. intros [|]; discriminate. }
  destruct ev as [editor lineNumber| | | | | |]; cbn.
  - unfold onGutterClick.
    destruct (CodeMirror.lineInfo editor lineNumber) as [info|].
    + destruct (decide (_id h ≠ _)) as [Hne|Heq].
      * split; [discriminate|]. intros (_ & Hid & _). contradiction.
      * assert (Hid : _id h = Debugger.session_client_path (_debuggerService h))
          by (destruct (decide (_id h = Debugger.session_client_path (_debuggerService h)));
              [assumption|contradiction]).
        unfold _getBreakpoints.
        destruct (_editor h) as [e|]; cbn.
        -- destruct (_debuggerModel h) as [m|]; cbn.
           ++ split; [discriminate|]. intros (_ & _ & [|]); discriminate.
           ++ split; [eauto|reflexivity].
        -- split; [eauto|reflexivity].
    + split; [discriminate|]. intros ([x Hx] & _). discriminate.
  - unfold on_activityStopped, _sendEditorBreakpoints.
    destruct (_editor h) as [e|] eqn:He; cbn; [|split; reflexivity].
    destruct (CodeEditor.isDisposed e) eqn:Hd; [split; discriminate|].
    pose proof (sendEditorBreakpoints_closed h e He Hd) as Hrun.
    unfold _sendEditorBreakpoints in Hrun. rewrite He in Hrun. cbn in Hrun.
    rewrite Hd in Hrun. rewrite Hrun. split; discriminate.
  - unfold on_changed. destruct (editor_gone (_editor h)) eqn:Hg.
    + split; [discriminate|]. intros [? _]. discriminate.
    + rewrite Hrender. destruct (_editor h); [|discriminate]. split.
      * intros [|]; [discriminate|auto].
      * intros [_ Hm]. auto.
  - unfold on_restored. destruct (editor_gone (_editor h)) eqn:Hg.
    + split; [discriminate|]. intros [? _]. discriminate.
    + rewrite Hrender. destruct (_editor h); [|discriminate]. split.
      * intros [|]; [discriminate|auto].
      * intros [_ Hm]. auto.
  - split; [discriminate|contradiction].
  - split; [discriminate|contradiction].
  - unfold dispose. destruct (isDisposed h).
    + split; [discriminate|]. intros [? _]. discriminate.
    + destruct (_editorMonitor h); cbn.
      * split; [discriminate|]. intros [_ ?]. discriminate.
      * split; [auto|reflexivity].
Qed.

(** ** What every event preserves *)

Lemma service_extends_refl (s : Debugger.Service) : service_extends s s.
Proof.
  unfold service_extends. repeat (split; [reflexivity|]).
  exists []. rewrite app_nil_r. reflexivity.
Qed.

Lemma service_extends_trans (s1 s2 s3 : Debugger.Service) :
  service_extends s1 s2 → service_extends s2 s3 → service_extends s1 s3.
Proof.
  intros (H1 & H2 & H3 & H4 & H5 & c & H6) (G1 & G2 & G3 & G4 & G5 & d & G6).
  unfold service_extends.
  rewrite G1, G2, G3, G4, G5, G6, H6. repeat (split; [assumption|]).
  exists (c ++ d). rewrite app_assoc. reflexivity.
Qed.

Lemma service_extends_update (code : string) (bps : list IDebugger.IBreakpoint)
    (path : option string) (s : Debugger.Service) :
  service_extends s (Debugger.void (Debugger.updateBreakpoints code bps path s)).
Proof.
  unfold service_extends. cbn. repeat (split; [reflexivity|]). eexists. reflexivity.
Qed.

Lemma editor_kept_refl (o : option CodeEditor.IEditor) : editor_kept o o.
Proof. destruct o; cbn; auto. Qed.

Lemma editor_kept_trans (o1 o2 o3 : option CodeEditor.IEditor) :
  editor_kept o1 o2 → editor_kept o2 o3 → editor_kept o1 o3.
Proof.
  destruct o1, o2, o3; cbn; try tauto.
  intros (H1 & H2 & H3) (G1 & G2 & G3). rewrite G1, G2, G3. auto.
Qed.

Lemma editor_kept_lines (e : CodeEditor.IEditor) (ls : list CodeMirror.Line)
    (f : CodeMirror.Editor → CodeMirror.Editor) :
  CodeMirror.lines (f (CodeEditor.editor e)) = ls →
  map CodeMirror.text ls = map CodeMirror.text (CodeMirror.lines (CodeEditor.editor e)) →
  editor_kept (Some e) (Some (CodeEditor.set_editor (f (CodeEditor.editor e)) e)).
Proof. intros Hl Ht. cbn. rewrite Hl. auto. Qed.

Lemma editor_kept_clearHighlight (o : option CodeEditor.IEditor) :
  editor_kept o (clearHighlight o).
Proof.
  destruct o as [e|]; [|exact I]. unfold clearHighlight.
  destruct (CodeEditor.isDisposed e); [apply editor_kept_refl|].
  cbn. repeat split. rewrite map_map. apply map_ext. intros l.
  unfold CodeMirror.removeLineClass_line. repeat case_decide; reflexivity.
Qed.

Lemma editor_kept_clearGutter (o : option CodeEditor.IEditor) :
  editor_kept o (clearGutter o).
Proof.
  destruct o as [e|]; [|exact I]. rewrite clearGutter_unfold.
  cbn. repeat split. rewrite map_map. apply map_ext. intros l.
  apply clearGutter_line_cases.
Qed.

Lemma evolves_refl (h : EditorHandler) : evolves h h.
Proof.
  unfold evolves. do 5 (split; [reflexivity || auto|]).
  split; [apply service_extends_refl | apply editor_kept_refl].
Qed.

Lemma evolves_trans (h1 h2 h3 : EditorHandler) :
  evolves h1 h2 → evolves h2 h3 → evolves h1 h3.
Proof.
  intros (H1 & H2 & H3 & H4 & H5 & H6 & H7) (G1 & G2 & G3 & G4 & G5 & G6 & G7).
  unfold evolves. rewrite G1, G2, G3. do 5 (split; [assumption || auto|]).
  split; [eapply service_extends_trans | eapply editor_kept_trans]; eassumption.
Qed.

Lemma evolves_set_editor (h : EditorHandler) (o : option CodeEditor.IEditor) :
  editor_kept (_editor h) o → evolves h (set__editor o h).
Proof.
  intros Hk. unfold evolves. cbn. do 5 (split; [reflexivity || auto|]).
  split; [apply service_extends_refl | exact Hk].
Qed.

Lemma evolves_set_service (h : EditorHandler) (s : Debugger.Service) :
  service_extends (_debuggerService h) s → evolves h (set__debuggerService s h).
Proof.
  intros Hs. unfold evolves. cbn. do 5 (split; [reflexivity || auto|]).
  split; [exact Hs | apply editor_kept_refl].
Qed.

Lemma clearEditor_cases (h : EditorHandler) :
  _clearEditor h = h ∨
  ∃ e1, _clearEditor h = set__editor (Some e1) h ∧ editor_kept (_editor h) (Some e1).
Proof.
  unfold _clearEditor. destruct (editor_gone (_editor h)); [left; reflexivity|].
  pose proof (editor_kept_trans _ _ _ (editor_kept_clearHighlight (_editor h))
                (editor_kept_clearGutter (clearHighlight (_editor h)))) as Hk.
  destruct (clearGutter (clearHighlight (_editor h))) as [e1|]; [|left; reflexivity].
  right. eexists. split; [reflexivity|].
  eapply editor_kept_trans; [exact Hk|].
  cbn. auto.
Qed.

Lemma handle_evolves (h h' : EditorHandler) (ev : Event) :
  handle h ev = Normal h' → evolves h h'.
Proof.
  intros Hrun. destruct ev as [editor lineNumber| | | | | |].
  - cbn in Hrun. unfold onGutterClick in Hrun.
    destruct (CodeMirror.lineInfo editor lineNumber);
      [|injection Hrun as <-; apply evolves_refl].
    destruct (decide _); [injection Hrun as <-; apply evolves_refl|].
    destruct (_getBreakpoints h); cbn in Hrun; [|discriminate].
    destruct (_editor h); cbn in Hrun; [|discriminate].
    injection Hrun as <-. apply evolves_set_service, service_extends_update.
  - cbn in Hrun. unfold on_activityStopped, _sendEditorBreakpoints in Hrun.
    destruct (_editor h) as [e|]; cbn in Hrun; [|discriminate].
    destruct (CodeEditor.isDisposed e); [injection Hrun as <-; apply evolves_refl|].
    destruct (_getBreakpointsFromEditor h); cbn in Hrun; [|discriminate].
    injection Hrun as <-. apply evolves_set_service, service_extends_update.
  - destruct (model_notification_cases h h' _ (or_introl eq_refl) Hrun)
      as [-> | (e & m & He & _ & _ & _ & ->)]; [apply evolves_refl|].
    apply evolves_set_editor. rewrite He. cbn. repeat split.
    apply list_eq. intros i. rewrite !list_lookup_fmap, list_lookup_imap.
    destruct (CodeMirror.lines (CodeEditor.editor e) !! i); [|reflexivity].
    cbn. f_equal. apply render_line_frame.
  - destruct (model_notification_cases h h' _ (or_intror eq_refl) Hrun)
      as [-> | (e & m & He & _ & _ & _ & ->)]; [apply evolves_refl|].
    apply evolves_set_editor. rewrite He. cbn. repeat split.
    apply list_eq. intros i. rewrite !list_lookup_fmap, list_lookup_imap.
    destruct (CodeMirror.lines (CodeEditor.editor e) !! i); [|reflexivity].
    cbn. f_equal. apply render_line_frame.
  - cbn in Hrun. injection Hrun as <-.
    apply evolves_set_editor, editor_kept_clearHighlight.
  - cbn in Hrun. injection Hrun as <-. unfold _onModelChanged. cbn.
    destruct (Debugger.model (_debuggerService h)); unfold evolves; cbn;
      do 5 (split; [reflexivity || auto|]);
      (split; [apply service_extends_refl | apply editor_kept_refl]).
  - cbn in Hrun. unfold dispose in Hrun.
    destruct (isDisposed h) eqn:Hd; [injection Hrun as <-; apply evolves_refl|].
    destruct (_editorMonitor h) as [mon|]; cbn in Hrun; [|discriminate].
    injection Hrun as <-.
    destruct (clearEditor_cases
                (set__editorMonitor (Some (ActivityMonitor_dispose mon)) h))
      as [-> | (e1 & -> & Hk)]; unfold evolves; cbn;
      do 5 (split; [reflexivity || eauto|]);
      (split; [apply service_extends_refl | first [apply editor_kept_refl | exact Hk]]).
Qed.

(** X10: whatever events a handler receives, in any order, it stays bound
    to the same session identity and path, stays disposed once disposed,
    keeps its monitor, sends the service nothing but [updateBreakpoints]
    requests (it never requests [clearBreakpoints] and never changes the
    session), and never replaces, disposes or edits the text of its
    editor. *)
Theorem run_evolves (h h' : EditorHandler) (evs : list Event) :
  run h evs = Normal h' → evolves h h'.
Proof.
  revert h. induction evs as [|ev evs IH]; intros h Hrun.
  - injection Hrun as <-. apply evolves_refl.
  - unfold run in Hrun. cbn [forEach] in Hrun.
    destruct (handle h ev) as [h1|] eqn:Hstep; cbn in Hrun; [|discriminate].
    eapply evolves_trans; [apply (handle_evolves h h1 ev Hstep)|].
    apply IH. exact Hrun.
Qed.

Lemma run_evolves_witness :
  ∃ h',
    run Sample.handler
      [BreakpointsChanged; GutterClick Sample.cm_marked 0; ActivityStopped;
       CurrentFrameChanged; Dispose; BreakpointsRestored] = Normal h' ∧
    _id h' = "session-1" ∧
    isDisposed h' = true.
Proof.
  eexists. split; [vm_compute; reflexivity|].
  split; [|reflexivity].
  match goal with
  | |- _id ?x = _ =>
      destruct (run_evolves Sample.handler x
                  [BreakpointsChanged; GutterClick Sample.cm_marked 0; ActivityStopped;
                   CurrentFrameChanged; Dispose; BreakpointsRestored])
        as (_ & Hid & _); [vm_compute; reflexivity | rewrite Hid; reflexivity]
  end.
Defined.

(** ** Which events write where *)

Lemma handle_service_same (h h' : EditorHandler) (ev : Event) :
  sends_request ev = false →
  handle h ev = Normal h' →
  _debuggerService h' = _debuggerService h.
Proof.
  intros Hev Hrun. destruct ev as [editor lineNumber| | | | | |]; try discriminate.
  - destruct (model_notification_cases h h' _ (or_introl eq_refl) Hrun)
      as [-> | (e & m & _ & _ & _ & _ & ->)]; reflexivity.
  - destruct (model_notification_cases h h' _ (or_intror eq_refl) Hrun)
      as [-> | (e & m & _ & _ & _ & _ & ->)]; reflexivity.
  - injection Hrun as <-. reflexivity.
  - injection Hrun as <-. apply onModelChanged_service.
  - apply dispose_service. exact Hrun.
Qed.

Lemma handle_editor_same (h h' : EditorHandler) (ev : Event) :
  writes_editor ev = false →
  handle h ev = Normal h' →
  _editor h' = _editor h.
Proof.
  intros Hev Hrun. destruct ev as [editor lineNumber| | | | | |]; try discriminate.
  - cbn in Hrun. unfold onGutterClick in Hrun.
    destruct (CodeMirror.lineInfo editor lineNumber); [|injection Hrun as <-; reflexivity].
    destruct (decide _); [injection Hrun as <-; reflexivity|].
    destruct (_getBreakpoints h); cbn in Hrun; [|discriminate].
    destruct (_editor h) eqn:He; cbn in Hrun; [|discriminate].
    injection Hrun as <-. cbn. congruence.
  - cbn in Hrun. unfold on_activityStopped, _sendEditorBreakpoints in Hrun.
    destruct (_editor h) as [e|] eqn:He; cbn in Hrun; [|discriminate].
    destruct (CodeEditor.isDisposed e); [injection Hrun as <-; congruence|].
    destruct (_getBreakpointsFromEditor h); cbn in Hrun; [|discriminate].
    injection Hrun as <-. cbn. congruence.
  - cbn in Hrun. injection Hrun as <-. unfold _onModelChanged. cbn.
    destruct (Debugger.model (_debuggerService h)); reflexivity.
Qed.

(** X11: the handler writes to the service only on gutter clicks and when
    the debounce elapses, and to the editor only on model notifications,
    frame changes and disposal: a run of events without click and debounce
    leaves the service (and its log of requests) as it was, and a run of
    clicks, debounces and model changes leaves the editor as it was; in
    particular a click never changes a gutter marker by itself. *)
Theorem events_write_disjointly (h h' : EditorHandler) (evs : list Event) :
  run h evs = Normal h' →
  (Forall (λ ev, sends_request ev = false) evs →
   _debuggerService h' = _debuggerService h) ∧
  (Forall (λ ev, writes_editor ev = false) evs →
   _editor h' = _editor h).
Proof.
  revert h. induction evs as [|ev evs IH]; intros h Hrun.
  - injection Hrun as <-. split; reflexivity.
  - unfold run in Hrun. cbn [forEach] in Hrun.
    destruct (handle h ev) as [h1|] eqn:Hstep; cbn in Hrun; [|discriminate].
    destruct (IH h1 Hrun) as [IHs IHe]. split; intros Hall;
      apply Forall_cons in Hall as [Hev Hall].
    + rewrite (IHs Hall). apply (handle_service_same h h1 ev Hev Hstep).
    + rewrite (IHe Hall). apply (handle_editor_same h h1 ev Hev Hstep).
Qed.

Lemma events_write_disjointly_witness :
  ∃ h',
    run Sample.handler [GutterClick Sample.cm_marked 0; ActivityStopped; ModelChanged]
      = Normal h' ∧
    _editor h' = Some Sample.editor_live.
Proof.
  eexists. split; [vm_compute; reflexivity|].
  match goal with
  | |- _editor ?x = _ =>
      destruct (events_write_disjointly Sample.handler x
                  [GutterClick Sample.cm_marked 0; ActivityStopped; ModelChanged])
        as [_ He]; [vm_compute; reflexivity|]
  end.
  rewrite He; [reflexivity|]. repeat constructor.
Defined.

(** X12: [isDisposed] is read by [dispose] only. Every other event that
    reaches a disposed handler is handled exactly as by a live one: in
    particular a [changed] or [restored] notification still renders markers
    into a live editor after the handler was disposed. *)
Theorem isDisposed_only_gates_dispose (h : EditorHandler) (ev : Event) (b : bool) :
  ev ≠ Dispose →
  handle (set_isDisposed b h) ev =
    match handle h ev with
    | Normal h' => Normal (set_isDisposed b h')
    | Throw err => Throw err
    end.
Proof.
  intros Hev. destruct ev as [editor lineNumber| | | | | |]; try contradiction; cbn.
  - unfold onGutterClick, _getBreakpoints. cbn.
    destruct (CodeMirror.lineInfo editor lineNumber); [|reflexivity].
    destruct (decide _); [reflexivity|].
    destruct (_editor h); cbn; [|reflexivity].
    destruct (_debuggerModel h); reflexivity.
  - unfold on_activityStopped, _sendEditorBreakpoints, _getBreakpointsFromEditor. cbn.
    destruct (_editor h) as [e|]; cbn; [|reflexivity].
    destruct (CodeEditor.isDisposed e); [reflexivity|].
    destruct (forEach _ _ _); reflexivity.
  - unfold on_changed, _addBreakpointsToEditor, _getBreakpoints. cbn.
    destruct (editor_gone (_editor h)); [reflexivity|].
    destruct (_editor h); cbn; [|reflexivity].
    destruct (_debuggerModel h); cbn; [|reflexivity].
    destruct (decide _); [reflexivity|].
    destruct (forEach _ _ _); reflexivity.
  - unfold on_restored, _addBreakpointsToEditor, _getBreakpoints. cbn.
    destruct (editor_gone (_editor h)); [reflexivity|].
    destruct (_editor h); cbn; [|reflexivity].
    destruct (_debuggerModel h); cbn; [|reflexivity].
    destruct (decide _); [reflexivity|].
    destruct (forEach _ _ _); reflexivity.
  - reflexivity.
  - unfold _onModelChanged. cbn.
    destruct (Debugger.model (_debuggerService h)); reflexivity.
Qed.

Lemma isDisposed_only_gates_dispose_witness :
  ∃ h1 e1,
    handle (set_isDisposed true Sample.handler) BreakpointsChanged = Normal h1 ∧
    isDisposed h1 = true ∧
    _editor h1 = Some e1 ∧
    marked_lines (CodeEditor.editor e1) = [0; 2].
Proof.
  eexists. eexists.
  rewrite (isDisposed_only_gates_dispose Sample.handler BreakpointsChanged true)
    by discriminate.
  split; [vm_compute; reflexivity|]. split; [reflexivity|].
  split; [reflexivity|]. vm_compute. reflexivity.
Defined.

(** ** Construction and disposal *)

Lemma constructor_null_editor_throws (this : nat) (svc : Debugger.Service)
    (p : option string) :
  constructor this (mkIOptions svc None p) = Throw TypeError.
Proof.
  unfold constructor, _onModelChanged. cbn.
  destruct (Debugger.model svc); reflexivity.
Qed.

Lemma constructor_no_model_throws (this : nat) (svc : Debugger.Service)
    (e : CodeEditor.IEditor) (p : option string) :
  Debugger.model svc = None →
  CodeEditor.isDisposed e = false →
  constructor this (mkIOptions svc (Some e) p) = Throw TypeError.
Proof.
  intros Hm Hd.
  unfold constructor, _onModelChanged. cbn. rewrite Hm. cbn.
  unfold _setupEditor.
  cbn [_editor connect set_connections set__editorMonitor set__debuggerModel].
  replace (editor_gone (Some e)) with false by (cbn; congruence).
  reflexivity.
Qed.

Lemma constructor_disposed_editor (this : nat) (svc : Debugger.Service)
    (e : CodeEditor.IEditor) (p : option string) :
  CodeEditor.isDisposed e = true →
  ∃ h, constructor this (mkIOptions svc (Some e) p) = Normal h ∧
       _editor h = Some e ∧
       _debuggerService h = svc ∧
       _debuggerModel h = Debugger.model svc ∧
       _editorMonitor h = Some (mkActivityMonitor EDITOR_CHANGED_TIMEOUT false).
Proof.
  intros Hd.
  unfold constructor, _onModelChanged. cbn.
  destruct (Debugger.model svc) as [m|]; cbn; unfold _setupEditor;
    cbn [_editor connect set_connections set__editorMonitor
         set__breakpointsModel set__debuggerModel];
    (replace (editor_gone (Some e)) with true by (cbn; congruence));
    eexists; (split; [reflexivity|]); repeat split.
Qed.

(** The constructor in closed form, on a live editor and with a model. *)
Lemma constructor_live (this : nat) (svc : Debugger.Service) (e : CodeEditor.IEditor)
    (p : option string) (m : Debugger.Model) :
  Debugger.model svc = Some m →
  CodeEditor.isDisposed e = false →
  constructor this (mkIOptions svc (Some e) p) =
    Normal
      {| self := this; isDisposed := false;
         _id := Debugger.session_client_path svc;
         _path := p;
         _editor :=
           Some (CodeEditor.mkIEditor (CodeEditor.isDisposed e)
                   (CodeMirror.mkEditor
                      (imap (render_line (CodeEditor.editor e)
                               (Debugger.getBreakpoints (Debugger.breakpoints m)
                                  (default (Debugger.getCodeId svc
                                              (CodeEditor.model_value_text e)) p)))
                         (CodeMirror.lines (CodeEditor.editor e)))
                      true ["CodeMirror-linenumbers"; "breakpoints"]
                      (CodeMirror.gutterClick (CodeEditor.editor e) ++ [this]))
                   (CodeEditor.model_value_text e));
         _debuggerModel := Some m;
         _breakpointsModel := Some (Debugger.breakpoints m);
         _debuggerService := svc;
         _editorMonitor := Some (mkActivityMonitor EDITOR_CHANGED_TIMEOUT false);
         connections :=
           [mkConnection currentFrameChanged false; mkConnection changed false;
            mkConnection restored false; mkConnection modelChanged true;
            mkConnection activityStopped true] |}.
Proof.
  intros Hm Hd.
  unfold constructor, _onModelChanged. cbn. rewrite Hm. cbn.
  unfold _setupEditor.
  cbn [_editor connect set_connections set__editorMonitor
       set__breakpointsModel set__debuggerModel].
  replace (editor_gone (Some e)) with false by (cbn; congruence).
  match goal with
  | |- context [_addBreakpointsToEditor ?hh] =>
      rewrite (addBreakpointsToEditor_closed hh e m eq_refl eq_refl eq_refl)
  end.
  reflexivity.
Qed.

(** [dispose] in closed form, on a handler with a live editor. *)
Lemma dispose_live (this : nat) (id : string) (p : option string)
    (ls : list CodeMirror.Line) (b : bool) (g : list string) (c : list nat) (t : string)
    (dm : option Debugger.Model) (bm : option Debugger.BreakpointsModel)
    (svc : Debugger.Service) (mon : ActivityMonitor) (conns : list Connection) :
  dispose {| self := this; isDisposed := false; _id := id; _path := p;
             _editor := Some (CodeEditor.mkIEditor false (CodeMirror.mkEditor ls b g c) t);
             _debuggerModel := dm; _breakpointsModel := bm; _debuggerService := svc;
             _editorMonitor := Some mon; connections := conns |} =
  Normal {| self := this; isDisposed := true; _id := id; _path := p;
            _editor :=
              Some (CodeEditor.mkIEditor false
                      (CodeMirror.mkEditor
                         (map clearGutter_line
                            (map (CodeMirror.removeLineClass_line "wrap"
                                    LINE_HIGHLIGHT_CLASS) ls))
                         false [] (CodeMirror.remove_first this c))
                      t);
            _debuggerModel := dm; _breakpointsModel := bm; _debuggerService := svc;
            _editorMonitor := Some (ActivityMonitor_dispose mon);
            connections := filter (λ c, thisArg c = false) conns |}.
Proof. reflexivity. Qed.

(** X13: the constructor throws exactly when the editor is [null] or the
    editor is live and the service has no debugger model; on a disposed
    editor it returns a handler without touching the editor, model or not. *)
Theorem constructor_throws_iff (this : nat) (options : IOptions) (err : Error) :
  (constructor this options = Throw err ↔
   editor options = None ∨
   (editor_gone (editor options) = false ∧
    Debugger.model (debuggerService options) = None)) ∧
  (∀ e, editor options = Some e → CodeEditor.isDisposed e = true →
        ∃ h, constructor this options = Normal h ∧
             _editor h = Some e ∧
             _debuggerService h = debuggerService options ∧
             _debuggerModel h = Debugger.model (debuggerService options) ∧
             _editorMonitor h =
               Some (mkActivityMonitor EDITOR_CHANGED_TIMEOUT false)).
Proof.
  destruct err. destruct options as [svc ed p]. cbn [editor debuggerService].
  split.
  - destruct ed as [e|].
    + destruct (CodeEditor.isDisposed e) eqn:Hd.
      * destruct (constructor_disposed_editor this svc e p Hd) as (h & Hrun & _).
        rewrite Hrun. split; [discriminate|].
        intros [Habs | [Hg _]]; [discriminate|]. cbn in Hg. congruence.
      * destruct (Debugger.model svc) as [m|] eqn:Hm.
        -- rewrite (constructor_live this svc e p m Hm Hd).
           split; [discriminate|]. intros [Habs | [_ Habs]]; discriminate.
        -- rewrite (constructor_no_model_throws this svc e p Hm Hd).
           split; [|reflexivity]. intros _. right. split; [exact Hd | reflexivity].
    + rewrite constructor_null_editor_throws. split; [auto | reflexivity].
  - intros e -> Hd. apply constructor_disposed_editor. exact Hd.
Qed.

Lemma constructor_throws_iff_witness :
  constructor 7 (mkIOptions Cases.service_no_model (Some Sample.editor_live) None)
    = Throw TypeError ∧
  ∃ h, constructor 7 (mkIOptions Cases.service_no_model (Some Sample.editor_disposed) None)
         = Normal h ∧
       _editor h = Some Sample.editor_disposed.
Proof.
  split.
  - apply (proj1 (constructor_throws_iff 7
                    (mkIOptions Cases.service_no_model (Some Sample.editor_live) None)
                    TypeError)).
    right. split; reflexivity.
  - destruct (proj2 (constructor_throws_iff 7
                       (mkIOptions Cases.service_no_model (Some Sample.editor_disposed) None)
                       TypeError) Sample.editor_disposed eq_refl eq_refl)
      as (h & Hrun & He & _).
    exists h. split; [exact Hrun | exact He].
Defined.

(** X14: on a live editor and a service with a model, the constructor
    issues no request, binds the handler to the service's session path,
    creates a 1000 ms monitor, makes five connections (the handler being the
    receiver of [modelChanged] and [activityStopped] only), renders the
    model's breakpoints as a [changed] notification would, turns the line
    numbers and the two gutters on and registers the click listener last. *)
Theorem constructor_sets_up_editor (this : nat) (options : IOptions)
    (e : CodeEditor.IEditor) (m : Debugger.Model) :
  editor options = Some e →
  CodeEditor.isDisposed e = false →
  Debugger.model (debuggerService options) = Some m →
  ∃ h e1,
    constructor this options = Normal h ∧
    self h = this ∧
    isDisposed h = false ∧
    _id h = Debugger.session_client_path (debuggerService options) ∧
    _path h = path options ∧
    _debuggerService h = debuggerService options ∧
    _debuggerModel h = Some m ∧
    _breakpointsModel h = Some (Debugger.breakpoints m) ∧
    _editorMonitor h = Some (mkActivityMonitor 1000 false) ∧
    connections h =
      [mkConnection currentFrameChanged false; mkConnection changed false;
       mkConnection restored false; mkConnection modelChanged true;
       mkConnection activityStopped true] ∧
    _editor h = Some e1 ∧
    CodeEditor.isDisposed e1 = false ∧
    CodeEditor.model_value_text e1 = CodeEditor.model_value_text e ∧
    CodeMirror.opt_lineNumbers (CodeEditor.editor e1) = true ∧
    CodeMirror.opt_gutters (CodeEditor.editor e1) =
      ["CodeMirror-linenumbers"; "breakpoints"] ∧
    CodeMirror.gutterClick (CodeEditor.editor e1) =
      CodeMirror.gutterClick (CodeEditor.editor e) ++ [this] ∧
    CodeMirror.lines (CodeEditor.editor e1) =
      imap (render_line (CodeEditor.editor e)
              (Debugger.getBreakpoints (Debugger.breakpoints m)
                 (default (Debugger.getCodeId (debuggerService options)
                             (CodeEditor.model_value_text e))
                          (path options))))
           (CodeMirror.lines (CodeEditor.editor e)).
Proof.
  destruct options as [svc ed p]. cbn [editor debuggerService path].
  intros -> Hd Hm.
  rewrite (constructor_live this svc e p m Hm Hd).
  eexists. eexists. split; [reflexivity|].
  do 9 (split; [reflexivity|]).
  split; [reflexivity|].
  split; [exact Hd|].
  repeat split.
Qed.

Lemma constructor_sets_up_editor_witness :
  ∃ h e1,
    constructor 7 Cases.options_plain = Normal h ∧
    _editor h = Some e1 ∧
    CodeMirror.gutterClick (CodeEditor.editor e1) = [7%nat] ∧
    CodeMirror.opt_gutters (CodeEditor.editor e1) =
      ["CodeMirror-linenumbers"; "breakpoints"].
Proof.
  destruct (constructor_sets_up_editor 7 Cases.options_plain Cases.editor_plain
              (Debugger.mkModel Sample.bpModel) eq_refl eq_refl eq_refl)
    as (h & e1 & Hrun & _ & _ & _ & _ & _ & _ & _ & _ & _ & He1 & _ & _ & _ & Hg & Hc & _).
  exists h, e1. split; [exact Hrun|]. split; [exact He1|].
  split; [exact Hc | exact Hg].
Defined.

Lemma remove_first_app_fresh (x : nat) (l : list nat) :
  x ∉ l → CodeMirror.remove_first x (l ++ [x]) = l.
Proof.
  induction l as [|y l IH]; intros Hx; cbn.
  - destruct (decide (x = x)); [reflexivity|contradiction].
  - destruct (decide (x = y)) as [->|Hne].
    + exfalso. apply Hx. left.
    + rewrite IH; [reflexivity|]. intros Hin. apply Hx. right. exact Hin.
Qed.

(** X15: constructing a handler on a live editor and disposing it leaves
    the document as clearing the highlight and the breakpoint markers of the
    original editor would (the markers of the model are gone again, the text
    and the markers of other gutters are kept), with the click listeners as
    before the construction when the handler's listener was not among them;
    the line numbers and all gutters are off, no request was issued, and only
    the three connections without receiver remain. *)
Theorem construct_then_dispose (this : nat) (options : IOptions)
    (e : CodeEditor.IEditor) (m : Debugger.Model) :
  editor options = Some e →
  CodeEditor.isDisposed e = false →
  Debugger.model (debuggerService options) = Some m →
  this ∉ CodeMirror.gutterClick (CodeEditor.editor e) →
  ∃ h h1 e1 ec,
    constructor this options = Normal h ∧
    dispose h = Normal h1 ∧
    isDisposed h1 = true ∧
    _debuggerService h1 = debuggerService options ∧
    _editorMonitor h1 = Some (mkActivityMonitor 1000 true) ∧
    connections h1 =
      [mkConnection currentFrameChanged false; mkConnection changed false;
       mkConnection restored false] ∧
    _editor h1 = Some e1 ∧
    clearGutter (clearHighlight (Some e)) = Some ec ∧
    CodeMirror.lines (CodeEditor.editor e1) = CodeMirror.lines (CodeEditor.editor ec) ∧
    CodeMirror.gutterClick (CodeEditor.editor e1) =
      CodeMirror.gutterClick (CodeEditor.editor e) ∧
    CodeMirror.opt_lineNumbers (CodeEditor.editor e1) = false ∧
    CodeMirror.opt_gutters (CodeEditor.editor e1) = [] ∧
    CodeEditor.isDisposed e1 = false ∧
    CodeEditor.model_value_text e1 = CodeEditor.model_value_text e.
Proof.
  destruct options as [svc ed p]. cbn [editor debuggerService path].
  intros -> Hd Hm Hfresh.
  rewrite (constructor_live this svc e p m Hm Hd).
  rewrite (clearHighlight_live e Hd), clearGutter_unfold.
  rewrite Hd.
  eexists. eexists. eexists. eexists. split; [reflexivity|].
  rewrite dispose_live.
  split; [reflexivity|].
  do 4 (split; [reflexivity|]).
  split; [reflexivity|]. split; [reflexivity|].
  split; [|split; [apply remove_first_app_fresh; exact Hfresh | repeat split]].
  cbn [CodeEditor.editor CodeMirror.lines CodeEditor.set_editor CodeMirror.eachLine
       CodeMirror.set_lines].
  rewrite !map_map. apply list_eq. intros i.
  rewrite !list_lookup_fmap, list_lookup_imap.
  destruct (CodeMirror.lines (CodeEditor.editor e) !! i) as [l|]; [|reflexivity].
  apply (f_equal Some).
  rewrite !removeLineClass_clearGutter_comm. f_equal.
  unfold render_line, mark_line.
  destruct (decide (reached _ _ i)).
  - apply clearGutter_set_clearGutter.
  - apply clearGutter_line_idem.
Qed.

Lemma construct_then_dispose_witness :
  ∃ h h1 e1,
    constructor 7 Cases.options_plain = Normal h ∧
    dispose h = Normal h1 ∧
    _editor h1 = Some e1 ∧
    CodeMirror.gutterClick (CodeEditor.editor e1) = [] ∧
    CodeMirror.opt_gutters (CodeEditor.editor e1) = [].
Proof.
  destruct (construct_then_dispose 7 Cases.options_plain Cases.editor_plain
              (Debugger.mkModel Sample.bpModel) eq_refl eq_refl eq_refl)
    as (h & h1 & e1 & ec & Hrun & Hdis & _ & _ & _ & _ & He1 & _ & _ & Hclick & _ & Hg & _).
  - cbn. apply not_elem_of_nil.
  - exists h, h1, e1. split; [exact Hrun|]. split; [exact Hdis|]. split; [exact He1|].
    split; [exact Hclick | exact Hg].
Defined.

Lemma handle_throws_iff_witness :
  handle (Sample.handler_of None Sample.service) ActivityStopped = Throw TypeError ∧
  handle (Sample.handler_of (Some Sample.editor_live) Cases.service_no_model)
    CurrentFrameChanged ≠ Throw TypeError.
Proof.
  split.
  - apply (proj2 (handle_throws_iff (Sample.handler_of None Sample.service)
                    ActivityStopped TypeError)).
    reflexivity.
  - intros Hthrow.
    exact (proj1 (handle_throws_iff
                    (Sample.handler_of (Some Sample.editor_live) Cases.service_no_model)
                    CurrentFrameChanged TypeError) Hthrow).
Defined.
